(** * Window and session lifecycle of the Microsoft 365 desktop shell

    A shallow embedding of the window manager (config/windowManager.js),
    the session manager (config/sessionManager.js), the partition resolver
    (config/appLauncher.js), the settings store (config/store.js) and the
    start-up path of the main process (main.js), followed by the properties
    the specification states about them; then of the rest of these
    modules and of the modules around them (the command line of
    config/cli.js, the preferences of config/preferences.js, the media
    state of config/mediaState.js and the theme of config/theme.js), with
    further properties of the code.

    Conventions of the embedding.
    - JavaScript values are the inductive [JS.value].  Strings are byte
      strings (UTF-8).  Numbers are exact rationals plus the two infinities
      and NaN: binary64 rounding is not modelled, which is exact on the
      integers below 2^53, the only numbers the program itself produces
      (Date.now(), pixel geometry, window ids).
    - A JavaScript object used as a record is an association list in
      property order, and a property read with a fixed key looks at own
      properties only: none of the fixed keys the program reads is defined
      on Object.prototype.  The reads with a computed key of a table of
      the source (APP_URLS[name], APP_NAMES[name]) also find the names
      the table inherits from Object.prototype, [JS.inherited_names].
      The read app[type] of an account's address is exact for the keys
      personal and work and answers undefined for every other key.
    - The settings store is electron-store over the setting names the
      program uses, [Settings.names]: none of them has a dot, so that
      each names one top-level property of the stored document, and the
      values written are kept as JSON keeps them.
    - The text layer of JSON is abstracted: a file holds either text that
      JSON.parse rejects or the value JSON.parse returns for it, and
      JSON.stringify is the normalisation [JS.json] it performs on a value.
    - Electron is the environment: a native window is a record of what
      its accessors return at the moment they are called, a freshly
      constructed BrowserWindow is handed to [createWindow] as an argument,
      and file-system calls succeed.  Console output is recorded for the
      session manager only. *)

From Stdlib Require Import ZArith QArith Bool Ascii String List Lia FunInd.
From stdpp Require Import base option list strings gmap fin_maps.

Set Warnings "-register-all".
Local Open Scope string_scope.
Local Open Scope Z_scope.

(** ** JavaScript values and the coercions the program relies on *)
Module JS.

Inductive number :=
| Fin (q : Q)
| Inf (negative : bool)
| NaN.

Inductive value :=
| VUndefined
| VNull
| VBool (b : bool)
| VNum (n : number)
| VStr (s : string)
| VArr (elems : list value)
| VObj (props : list (string * value)).

(** Statement completion: a value, or an exception that unwinds to the
    nearest try/catch. *)
Inductive completion (A : Type) :=
| Normal (a : A)
| Throw (error : string).
Arguments Normal {A} a.
Arguments Throw {A} error.

Definition bind {A B} (c : completion A) (k : A -> completion B) : completion B :=
  match c with
  | Normal a => k a
  | Throw e => Throw e
  end.

Definition VInt (z : Z) : value := VNum (Fin (inject_Z z)).

(** ToBoolean. *)
Definition truthy (v : value) : bool :=
  match v with
  | VUndefined | VNull => false
  | VBool b => b
  | VNum (Fin q) => negb (Qeq_bool q 0)
  | VNum (Inf _) => true
  | VNum NaN => false
  | VStr s => negb (String.eqb s "")
  | VArr _ | VObj _ => true
  end.

(** [v === true] and [v === "s"]. *)
Definition is_true (v : value) : bool :=
  match v with
  | VBool true => true
  | _ => false
  end.

Definition is_str (s : string) (v : value) : bool :=
  match v with
  | VStr s' => String.eqb s' s
  | _ => false
  end.

(** [a || b]. *)
Definition or_else (a b : value) : value := if truthy a then a else b.

(** Array.isArray. *)
Definition isArray (v : value) : bool :=
  match v with
  | VArr _ => true
  | _ => false
  end.

Fixpoint assoc (k : string) (ps : list (string * value)) : option value :=
  match ps with
  | [] => None
  | (k', v) :: ps' => if String.eqb k' k then Some v else assoc k ps'
  end.

(** [v.k] for a key [k] that no prototype defines: a TypeError on null
    and undefined, the own property of an object, undefined otherwise. *)
Definition get (v : value) (k : string) : completion value :=
  match v with
  | VUndefined | VNull => Throw "TypeError"
  | VObj ps => Normal (default VUndefined (assoc k ps))
  | _ => Normal VUndefined
  end.

(** The names every object literal inherits from Object.prototype, and
    whether [o[name]] finds an inherited member in an object literal [o]
    that has no own property [name]. *)
Definition inherited_names : list string :=
  [ "constructor"; "toString"; "toLocaleString"; "valueOf"; "hasOwnProperty";
    "isPrototypeOf"; "propertyIsEnumerable"; "__proto__"; "__defineGetter__";
    "__defineSetter__"; "__lookupGetter__"; "__lookupSetter__" ].

Definition inherited (name : string) : bool :=
  existsb (String.eqb name) inherited_names.

(** Arithmetic of [Date.now() - t > maxAge]. *)
Definition sub (a b : number) : number :=
  match a, b with
  | NaN, _ | _, NaN => NaN
  | Fin x, Fin y => Fin (x - y)
  | Fin _, Inf n => Inf (negb n)
  | Inf n, Fin _ => Inf n
  | Inf n, Inf m => if Bool.eqb n m then NaN else Inf n
  end.

Definition gt (a b : number) : bool :=
  match a, b with
  | NaN, _ | _, NaN => false
  | Fin x, Fin y => negb (Qle_bool x y)
  | Fin _, Inf n => n
  | Inf n, Fin _ => negb n
  | Inf n, Inf m => negb n && m
  end.

(** *** StringToNumber

    The StringNumericLiteral grammar: optional white space, then nothing,
    a signed decimal literal (Infinity, digits with an optional fraction
    and exponent) or an unsigned 0x/0o/0b integer, then optional white
    space.  Anything else is NaN.  A literal is read to its exact value
    and not rounded to binary64: whether the result is NaN is the same,
    and a literal beyond the binary64 range stays finite here where
    JavaScript reads an infinity. *)

(** Leading StrWhiteSpaceChar removed: TAB, LF, VT, FF, CR, SP and, in
    UTF-8, U+00A0, U+1680, U+2000..U+200A, U+2028, U+2029, U+202F,
    U+205F, U+3000 and U+FEFF. *)
Fixpoint skip_ws (s : string) : string :=
  match s with
  | String c s1 =>
      let n := nat_of_ascii c in
      if ((n =? 9) || (n =? 10) || (n =? 11) || (n =? 12) || (n =? 13) || (n =? 32))%nat
      then skip_ws s1
      else
        match s1 with
        | String c1 s2 =>
            let n1 := nat_of_ascii c1 in
            if ((n =? 194) && (n1 =? 160))%nat then skip_ws s2
            else
              match s2 with
              | String c2 s3 =>
                  let n2 := nat_of_ascii c2 in
                  if ((n =? 225) && (n1 =? 154) && (n2 =? 128)
                      || (n =? 226) && (n1 =? 128)
                         && ((128 <=? n2) && (n2 <=? 138) || (n2 =? 168) || (n2 =? 169) || (n2 =? 175))
                      || (n =? 226) && (n1 =? 129) && (n2 =? 159)
                      || (n =? 227) && (n1 =? 128) && (n2 =? 128)
                      || (n =? 239) && (n1 =? 187) && (n2 =? 191))%nat
                  then skip_ws s3
                  else s
              | EmptyString => s
              end
        | EmptyString => s
        end
  | EmptyString => s
  end.

(** The value of a digit in the given radix, if it is one. *)
Definition digit_of (radix : Z) (c : ascii) : option Z :=
  let n := Z.of_nat (nat_of_ascii c) in
  let d := if (48 <=? n) && (n <=? 57) then Some (n - 48)
           else if (97 <=? n) && (n <=? 102) then Some (n - 87)
           else if (65 <=? n) && (n <=? 70) then Some (n - 55)
           else None in
  match d with
  | Some k => if k <? radix then Some k else None
  | None => None
  end.

(** The longest run of digits at the head of [s]: its value continuing
    the accumulator, how many digits it has, and what follows. *)
Fixpoint take_digits (radix : Z) (acc : Z) (count : Z) (s : string) : Z * Z * string :=
  match s with
  | String c s' =>
      match digit_of radix c with
      | Some d => take_digits radix (acc * radix + d) (count + 1) s'
      | None => (acc, count, s)
      end
  | EmptyString => (acc, count, s)
  end.

(** [m * 10^e] as a rational. *)
Definition scale10 (m e : Z) : Q :=
  if 0 <=? e then inject_Z (m * 10 ^ e) else Qmake m (Z.to_pos (10 ^ (- e))).

(** [s] without its prefix [p], when it starts with it. *)
Fixpoint starts_with (p s : string) : option string :=
  match p, s with
  | EmptyString, _ => Some s
  | String a p', String b s' => if Ascii.eqb a b then starts_with p' s' else None
  | String _ _, EmptyString => None
  end.

(** ExponentPart, when one is there: its value and what follows it. *)
Definition exponent_part (s : string) : Z * string :=
  match s with
  | String c s1 =>
      if (Ascii.eqb c "e" || Ascii.eqb c "E")%char then
        let '(neg, s2) :=
          match s1 with
          | String "+"%char r => (false, r)
          | String "-"%char r => (true, r)
          | _ => (false, s1)
          end in
        let '(k, n, rest) := take_digits 10 0 0 s2 in
        if 0 <? n then (if neg then - k else k, rest) else (0, s)
      else (0, s)
  | EmptyString => (0, s)
  end.

(** StrUnsignedDecimalLiteral at the head of [s], and what follows it. *)
Definition unsigned_decimal (s : string) : option (number * string) :=
  match starts_with "Infinity" s with
  | Some rest => Some (Inf false, rest)
  | None =>
      let '(i, n1, r1) := take_digits 10 0 0 s in
      match r1 with
      | String "."%char r2 =>
          let '(m, n2, r3) := take_digits 10 i 0 r2 in
          if 0 <? n1 + n2 then
            let '(e, rest) := exponent_part r3 in
            Some (Fin (scale10 m (e - n2)), rest)
          else None
      | _ =>
          if 0 <? n1 then
            let '(e, rest) := exponent_part r1 in
            Some (Fin (scale10 i e), rest)
          else None
      end
  end.

Definition negate (n : number) : number :=
  match n with
  | Fin q => Fin (- q)
  | Inf b => Inf (negb b)
  | NaN => NaN
  end.

(** NonDecimalIntegerLiteral: 0x, 0o or 0b and at least one digit. *)
Definition non_decimal (s : string) : option (number * string) :=
  match s with
  | String "0"%char (String p s') =>
      let radix :=
        if (Ascii.eqb p "x" || Ascii.eqb p "X")%char then Some 16
        else if (Ascii.eqb p "o" || Ascii.eqb p "O")%char then Some 8
        else if (Ascii.eqb p "b" || Ascii.eqb p "B")%char then Some 2
        else None in
      match radix with
      | Some r =>
          let '(v, n, rest) := take_digits r 0 0 s' in
          if 0 <? n then Some (Fin (inject_Z v), rest) else None
      | None => None
      end
  | _ => None
  end.

Definition numeric_literal (s : string) : option (number * string) :=
  match non_decimal s with
  | Some r => Some r
  | None =>
      match s with
      | String "+"%char s' => unsigned_decimal s'
      | String "-"%char s' =>
          match unsigned_decimal s' with
          | Some (n, rest) => Some (negate n, rest)
          | None => None
          end
      | _ => unsigned_decimal s
      end
  end.

Definition StringToNumber (s : string) : number :=
  let t := skip_ws s in
  if String.eqb t "" then Fin 0
  else
    match numeric_literal t with
    | Some (n, rest) => if String.eqb (skip_ws rest) "" then n else NaN
    | None => NaN
    end.

(** *** ToNumber on the values JSON.parse returns

    No such value is callable, so ToPrimitive ends in the inherited
    Object.prototype.toString or Array.prototype.join, unless an object
    carries an own property named toString: then no method applies and a
    TypeError is thrown. *)

Definition has_key (k : string) (ps : list (string * value)) : bool :=
  match assoc k ps with
  | Some _ => true
  | None => false
  end.

Fixpoint toString_throws (v : value) : bool :=
  match v with
  | VObj ps => has_key "toString" ps
  | VArr l =>
      (fix any (l : list value) : bool :=
         match l with
         | [] => false
         | e :: l' => toString_throws e || any l'
         end) l
  | _ => false
  end.

(** An array converts through the string its join produces: empty for
    no element, a text with a comma (never a numeric literal) for two or
    more, and the string of its element for one, where null and undefined
    are the empty string and a number prints to a text that reads back as
    the same number. *)
Fixpoint ToNumber (v : value) : completion number :=
  match v with
  | VUndefined => Normal NaN
  | VNull => Normal (Fin 0)
  | VBool b => Normal (Fin (if b then 1 else 0))
  | VNum n => Normal n
  | VStr s => Normal (StringToNumber s)
  | VObj ps => if has_key "toString" ps then Throw "TypeError" else Normal NaN
  | VArr l =>
      if toString_throws (VArr l) then Throw "TypeError"
      else
        match l with
        | [] => Normal (Fin 0)
        | [e] =>
            match e with
            | VUndefined | VNull => Normal (Fin 0)
            | VBool _ | VObj _ => Normal NaN
            | VNum n => Normal n
            | VStr s => Normal (StringToNumber s)
            | VArr _ => ToNumber e
            end
        | _ => Normal NaN
        end
  end.

(** Whether the property key a value converts to is the string [k]
    ([k] one of the keys of an account table, which no primitive other
    than the string itself prints as). *)
Fixpoint key_is (k : string) (v : value) : bool :=
  match v with
  | VStr s => String.eqb s k
  | VArr [e] => key_is k e
  | _ => false
  end.

(** *** JSON

    [json v] is JSON.parse (JSON.stringify v) for a value [v] other than
    undefined: a property whose value is undefined is left out, undefined
    in an array and the numbers JSON cannot write become null. *)
Fixpoint json (v : value) : value :=
  match v with
  | VNum (Fin q) => VNum (Fin q)
  | VNum _ => VNull
  | VArr l =>
      VArr (List.map (fun e => match e with
                               | VUndefined => VNull
                               | _ => json e
                               end) l)
  | VObj ps =>
      VObj ((fix props (ps : list (string * value)) : list (string * value) :=
               match ps with
               | [] => []
               | (k, VUndefined) :: ps' => props ps'
               | (k, e) :: ps' => (k, json e) :: props ps'
               end) ps)
  | _ => v
  end.

(** What a file holds, as JSON.parse sees it. *)
Inductive text :=
| NotJson (raw : string)
| Json (v : value).

Definition JSON_parse (t : text) : completion value :=
  match t with
  | NotJson _ => Throw "SyntaxError"
  | Json v => Normal v
  end.

Definition JSON_stringify (v : value) : text := Json (json v).

(** *** Strings *)

(** String.prototype.toLowerCase, exact on every byte that can take part
    in a match against ASCII text: the ASCII capitals, KELVIN SIGN
    (U+212A, which lowers to k) and LATIN CAPITAL LETTER I WITH DOT ABOVE
    (U+0130, which lowers to i and U+0307).  Other letters outside ASCII
    lower to letters outside ASCII and are kept as they are. *)
Fixpoint toLowerCase (s : string) : string :=
  match s with
  | EmptyString => EmptyString
  | String c s1 =>
      let n := nat_of_ascii c in
      let keep :=
        String (if ((65 <=? n) && (n <=? 90))%nat then ascii_of_nat (n + 32) else c)
               (toLowerCase s1) in
      match s1 with
      | String c1 s2 =>
          let n1 := nat_of_ascii c1 in
          if ((n =? 196) && (n1 =? 176))%nat
          then String "i" (String (ascii_of_nat 204) (String (ascii_of_nat 135) (toLowerCase s2)))
          else
            match s2 with
            | String c2 s3 =>
                if ((n =? 226) && (n1 =? 132) && (nat_of_ascii c2 =? 170))%nat
                then String "k" (toLowerCase s3)
                else keep
            | EmptyString => keep
            end
      | EmptyString => keep
      end
  end.

(** Whether a string holds an ASCII capital; what toLowerCase returns
    holds none. *)
Definition capital (c : ascii) : bool :=
  let n := nat_of_ascii c in ((65 <=? n) && (n <=? 90))%nat.

Fixpoint has_capital (s : string) : bool :=
  match s with
  | EmptyString => false
  | String c s' => capital c || has_capital s'
  end.

(** String.prototype.includes. *)
Fixpoint includes (s pattern : string) : bool :=
  match starts_with pattern s with
  | Some _ => true
  | None =>
      match s with
      | String _ s' => includes s' pattern
      | EmptyString => false
      end
  end.

End JS.

(** ** config/store.js: the settings store *)
Module Store.
Import JS.

(** electron-store: a persistent map from setting names to values. *)
Abbreviation settings := (gmap string value).

Definition getValue (store : settings) (key : string) : value :=
  default VUndefined (store !! key).

Definition setValue (key : string) (v : value) (store : settings) : settings :=
  <[key := v]> store.

End Store.

(** ** config/appLauncher.js: account types, partitions and app URLs *)
Module AppLauncher.
Import JS Store.

(** One entry of APP_URLS: the personal and the work address. *)
Record AppUrl := { personal : string; work : string }.

(** APP_URLS.home. *)
Definition APP_URLS_home : AppUrl :=
  {| personal := "https://microsoft365.com/?auth=1";
     work := "https://microsoft365.com/?auth=2" |}.

Definition APP_URLS : list (string * AppUrl) :=
  [ ("word", {| personal := "https://microsoft365.com/launch/word?auth=1";
                work := "https://microsoft365.com/launch/word?auth=2" |});
    ("excel", {| personal := "https://microsoft365.com/launch/excel?auth=1";
                 work := "https://microsoft365.com/launch/excel?auth=2" |});
    ("powerpoint", {| personal := "https://microsoft365.com/launch/powerpoint?auth=1";
                      work := "https://microsoft365.com/launch/powerpoint?auth=2" |});
    ("outlook", {| personal := "https://outlook.live.com/mail/";
                   work := "https://outlook.office.com/mail/" |});
    ("onedrive", {| personal := "https://microsoft365.com/launch/onedrive?auth=1";
                    work := "https://microsoft365.com/launch/onedrive?auth=2" |});
    ("onenote", {| personal := "https://www.onenote.com/notebooks?auth=1";
                   work := "https://www.onenote.com/notebooks?auth=2" |});
    ("teams", {| personal := "https://teams.live.com/";
                 work := "https://teams.microsoft.com/" |});
    ("allapps", {| personal := "https://www.microsoft365.com/apps?auth=1";
                   work := "https://www.microsoft365.com/apps?auth=2" |});
    ("home", APP_URLS_home) ].

Fixpoint lookup_app (name : string) (table : list (string * AppUrl)) : option AppUrl :=
  match table with
  | [] => None
  | (k, a) :: table' => if String.eqb k name then Some a else lookup_app name table'
  end.

Definition getAccountType (store : settings) : value :=
  if is_str "?auth=2" (getValue store "enterprise-or-normal")
  then VStr "work" else VStr "personal".

Definition getPartition (store : settings) (accountType : value) : string :=
  let type := or_else accountType (getAccountType store) in
  if is_str "work" type then "persist:work" else "persist:personal".

(** [app[type]] for an entry [app] of the table. *)
Definition account_url (app : AppUrl) (type : value) : completion value :=
  if toString_throws type then Throw "TypeError"
  else if key_is "personal" type then Normal (VStr (personal app))
  else if key_is "work" type then Normal (VStr (work app))
  else Normal VUndefined.

(** [app[type]] when [app] is what APP_URLS inherits under a name of
    Object.prototype (the function Object under constructor,
    Object.prototype itself under __proto__, a method otherwise): it has
    no property personal or work. *)
Definition inherited_url (type : value) : completion value :=
  if toString_throws type then Throw "TypeError" else Normal VUndefined.

(** [getAppUrl(appName, accountType)].  What APP_URLS inherits is truthy,
    so that an inherited name does not take the branch of the unknown
    app. *)
Definition getAppUrl (store : settings) (appName accountType : value) : completion value :=
  let type := or_else accountType (getAccountType store) in
  match appName with
  | VStr name =>
      match lookup_app (toLowerCase name) APP_URLS with
      | Some app => account_url app type
      | None =>
          if inherited (toLowerCase name) then inherited_url type
          else account_url APP_URLS_home type
      end
  | _ => Throw "TypeError"
  end.

End AppLauncher.

(** ** config/windowManager.js: the registry of managed windows *)
Module WindowManager.
Import JS Store AppLauncher.

(** Electron's Rectangle and what a BrowserWindow answers when asked. *)
Record Rectangle := { rect_x : Z; rect_y : Z; rect_width : Z; rect_height : Z }.

Record BrowserWindow := {
  win_id : Z;
  getBounds : Rectangle;
  win_isMaximized : bool;
  win_isFullScreen : bool;
  getURL : string
}.

Definition rectangle (r : Rectangle) : value :=
  VObj [ ("x", VInt (rect_x r)); ("y", VInt (rect_y r));
         ("width", VInt (rect_width r)); ("height", VInt (rect_height r)) ].

(** WindowMeta.  The fields hold whatever the caller of [createWindow]
    passed; the typedef says strings, an object and booleans. *)
Record WindowMeta := {
  meta_id : Z;
  appType : value;
  accountType : value;
  url : value;
  bounds : value;
  isMaximized : value;
  isFullScreen : bool
}.

(** The options object of [createWindow]; an absent option is undefined. *)
Record Options := {
  opt_url : value;
  opt_appType : value;
  opt_accountType : value;
  opt_bounds : value;
  opt_isMaximized : value;
  opt_show : value
}.

(** The module's state: managedWindows and windowIdCounter. *)
Record Registry := {
  managedWindows : gmap Z WindowMeta;
  windowIdCounter : Z
}.

(** A destructuring default: it applies to undefined only. *)
Definition or_default (v d : value) : value :=
  match v with
  | VUndefined => d
  | _ => v
  end.

(** An address handed to loadURL: a value, or the text
    https://microsoft365.com/${custompage}/${auth} with the two values
    that are spliced into it. *)
Inductive address :=
| Url (v : value)
| HomePage (custompage auth : value).

(** What [createWindow] asks of Electron for the window it returns: the
    partition and the bounds it is constructed with, the address it
    loads, and what the ready-to-show handler will do. *)
Record Creation := {
  created_meta : WindowMeta;
  created_partition : string;
  created_bounds : value;
  created_loadUrl : address;
  maximize_when_ready : bool;
  show_when_ready : bool
}.

Definition detectAppType (url : string) : string :=
  let urlLower := toLowerCase url in
  if includes urlLower "word" || includes urlLower ".docx" then "word"
  else if includes urlLower "excel" || includes urlLower ".xlsx" then "excel"
  else if includes urlLower "powerpoint" || includes urlLower ".pptx" then "powerpoint"
  else if includes urlLower "outlook" then "outlook"
  else if includes urlLower "onedrive" then "onedrive"
  else if includes urlLower "onenote" then "onenote"
  else if includes urlLower "teams" then "teams"
  else "home".

(** [createWindow(options)], where [defaultBounds] is the size computed
    from the primary display and [window] the BrowserWindow that
    [new BrowserWindow] returns.  An exception of [getAppUrl] leaves the
    counter advanced and the window unregistered. *)
Definition createWindow (store : settings) (defaultBounds : value)
    (options : Options) (window : BrowserWindow) (reg : Registry)
    : Registry * completion Creation :=
  let url := or_default (opt_url options) VNull in
  let appType := or_default (opt_appType options) (VStr "home") in
  let accountType :=
    or_default (opt_accountType options)
      (if is_str "?auth=2" (getValue store "enterprise-or-normal")
       then VStr "work" else VStr "personal") in
  let bounds := or_default (opt_bounds options) VNull in
  let isMaximized := or_default (opt_isMaximized options) (VBool false) in
  let show := or_default (opt_show options) (VBool true) in
  let windowId := windowIdCounter reg + 1 in
  let partition := getPartition store accountType in
  let windowBounds := or_else bounds defaultBounds in
  let meta_url :=
    if truthy url then Normal url else getAppUrl store appType accountType in
  match meta_url with
  | Throw e =>
      ({| managedWindows := managedWindows reg; windowIdCounter := windowId |}, Throw e)
  | Normal u =>
      let meta := {| meta_id := windowId; appType := appType; accountType := accountType;
                     url := u; bounds := windowBounds; isMaximized := isMaximized;
                     isFullScreen := false |} in
      let loadUrl :=
        if truthy url then Url url
        else HomePage (or_else (getValue store "custompage") (VStr "home"))
               (VStr (if is_str "work" accountType then "?auth=2" else "?auth=1")) in
      ({| managedWindows := <[win_id window := meta]> (managedWindows reg);
          windowIdCounter := windowId |},
       Normal {| created_meta := meta; created_partition := partition;
                 created_bounds := windowBounds;
                 created_loadUrl := loadUrl;
                 maximize_when_ready := truthy isMaximized;
                 show_when_ready := truthy show |})
  end.

(** The events [createWindow] subscribes to. *)
Inductive event :=
| Maximize
| Unmaximize
| EnterFullScreen
| LeaveFullScreen
| Resize
| Move
| DidNavigate (newUrl : string)
| DidNavigateInPage (newUrl : string)
| Closed.

Definition set_isMaximized (b : bool) (m : WindowMeta) : WindowMeta :=
  {| meta_id := meta_id m; appType := appType m; accountType := accountType m;
     url := url m; bounds := bounds m; isMaximized := VBool b;
     isFullScreen := isFullScreen m |}.

Definition set_isFullScreen (b : bool) (m : WindowMeta) : WindowMeta :=
  {| meta_id := meta_id m; appType := appType m; accountType := accountType m;
     url := url m; bounds := bounds m; isMaximized := isMaximized m;
     isFullScreen := b |}.

Definition set_bounds (b : value) (m : WindowMeta) : WindowMeta :=
  {| meta_id := meta_id m; appType := appType m; accountType := accountType m;
     url := url m; bounds := b; isMaximized := isMaximized m;
     isFullScreen := isFullScreen m |}.

Definition set_url (newUrl : string) (m : WindowMeta) : WindowMeta :=
  {| meta_id := meta_id m; appType := VStr (detectAppType newUrl);
     accountType := accountType m; url := VStr newUrl; bounds := bounds m;
     isMaximized := isMaximized m; isFullScreen := isFullScreen m |}.

(** [const meta = managedWindows.get(window.id); if (meta) ...]: the
    record of the window, when it has one, is changed in place. *)
Definition with_meta (window : BrowserWindow) (f : WindowMeta -> WindowMeta)
    (reg : Registry) : Registry :=
  {| managedWindows := alter f (win_id window) (managedWindows reg);
     windowIdCounter := windowIdCounter reg |}.

(** The handler of an event of [window], which answers the handler's
    questions as it stands when the event is delivered. *)
Definition handle (window : BrowserWindow) (e : event) (reg : Registry) : Registry :=
  match e with
  | Maximize => with_meta window (set_isMaximized true) reg
  | Unmaximize => with_meta window (set_isMaximized false) reg
  | EnterFullScreen => with_meta window (set_isFullScreen true) reg
  | LeaveFullScreen => with_meta window (set_isFullScreen false) reg
  | Resize | Move =>
      if negb (win_isMaximized window) && negb (win_isFullScreen window)
      then with_meta window (set_bounds (rectangle (getBounds window))) reg
      else reg
  | DidNavigate newUrl | DidNavigateInPage newUrl =>
      with_meta window (set_url newUrl) reg
  | Closed =>
      {| managedWindows := delete (win_id window) (managedWindows reg);
         windowIdCounter := windowIdCounter reg |}
  end.

(** The events of a run, each with the window it is delivered to. *)
Definition run (trace : list (BrowserWindow * event)) (reg : Registry) : Registry :=
  fold_left (fun r we => handle (fst we) (snd we) r) trace reg.

(** A record that holds what the typedef WindowMeta says of the fields
    a snapshot takes from it: strings for the app and the account type,
    an object for the bounds. *)
Definition typed (m : WindowMeta) : Prop :=
  (exists s, appType m = VStr s)
  /\ (exists s, accountType m = VStr s)
  /\ (exists ps, bounds m = VObj ps).

(** Options as the callers of this repository pass them: absent, or a
    string for the app and the account type, and absent, null or an
    object for the bounds. *)
Definition typed_options (o : Options) : Prop :=
  (opt_appType o = VUndefined \/ exists s, opt_appType o = VStr s)
  /\ (opt_accountType o = VUndefined \/ exists s, opt_accountType o = VStr s)
  /\ (opt_bounds o = VUndefined \/ opt_bounds o = VNull \/ exists ps, opt_bounds o = VObj ps).

(** The registries the module can be in: empty at first, then changed
    by calls of createWindow with such options (whether they return or
    throw) and by the events of the windows. *)
Inductive reachable : Registry -> Prop :=
| reachable_start :
    reachable {| managedWindows := ∅; windowIdCounter := 0 |}
| reachable_createWindow store size options window reg :
    reachable reg -> typed_options options ->
    reachable (fst (createWindow store (VObj size) options window reg))
| reachable_event window e reg :
    reachable reg -> reachable (handle window e reg).

(** A window showing transient geometry: maximized or full screen. *)
Definition transient (window : BrowserWindow) : bool :=
  win_isMaximized window || win_isFullScreen window.

(** The deliveries that may change or drop the cached bounds of the
    window [id]: a resize or a move while it shows its restored
    geometry, and its closing. *)
Definition touches_bounds (id : Z) (delivery : BrowserWindow * event) : bool :=
  (win_id (fst delivery) =? id)
  && match snd delivery with
     | Resize | Move => negb (transient (fst delivery))
     | Closed => true
     | _ => false
     end.

(** One record of [getSessionState]. *)
Definition session_record (window : BrowserWindow) (meta : WindowMeta) : WindowMeta :=
  {| meta_id := meta_id meta;
     appType := appType meta;
     accountType := accountType meta;
     url := VStr (getURL window);
     bounds := if win_isMaximized window then bounds meta else rectangle (getBounds window);
     isMaximized := VBool (win_isMaximized window);
     isFullScreen := win_isFullScreen window |}.

(** [getSessionState()], over the windows BrowserWindow.getAllWindows()
    returns. *)
Fixpoint getSessionState (allWindows : list BrowserWindow) (reg : Registry)
    : list WindowMeta :=
  match allWindows with
  | [] => []
  | window :: rest =>
      match managedWindows reg !! win_id window with
      | Some meta => session_record window meta :: getSessionState rest reg
      | None => getSessionState rest reg
      end
  end.

(** A record as the object JSON.stringify sees. *)
Definition object_of (m : WindowMeta) : value :=
  VObj [ ("id", VInt (meta_id m)); ("appType", appType m);
         ("accountType", accountType m); ("url", url m); ("bounds", bounds m);
         ("isMaximized", isMaximized m); ("isFullScreen", VBool (isFullScreen m)) ].

End WindowManager.

(** ** config/sessionManager.js: saving and restoring the session *)
Module SessionManager.
Import JS Store AppLauncher WindowManager.

(** What the module writes to the console. *)
Inductive message :=
| SessionSaved (count : nat)
| SessionTooOld
| RestoringSession (count : nat)
| FailedToRestore (error : string).

(** What the module does to its surroundings, in order. *)
Inductive effect :=
| CallGetSessionState
| WriteFile (data : text)
| Unlink
| Console (m : message)
| SetTimeout (delay : Z).

(** The process and its surroundings: the settings, the session file
    (None when there is none), Date.now(), the window manager's state,
    the windows Electron has, the callbacks setTimeout holds (the delay
    and the windowMeta each closes over), and what happened so far. *)
Record World := {
  store : settings;
  sessionFile : option text;
  now : Z;
  registry : Registry;
  allWindows : list BrowserWindow;
  timers : list (Z * value);
  effects : list effect
}.

Definition emit (e : effect) (w : World) : World :=
  {| store := store w; sessionFile := sessionFile w; now := now w;
     registry := registry w; allWindows := allWindows w; timers := timers w;
     effects := effects w ++ [e] |}.

Definition writeFileSync (data : text) (w : World) : World :=
  emit (WriteFile data)
    {| store := store w; sessionFile := Some data; now := now w;
       registry := registry w; allWindows := allWindows w; timers := timers w;
       effects := effects w |}.

Definition unlinkSync (w : World) : World :=
  emit Unlink
    {| store := store w; sessionFile := None; now := now w;
       registry := registry w; allWindows := allWindows w; timers := timers w;
       effects := effects w |}.

Definition setTimeout (windowMeta : value) (delay : Z) (w : World) : World :=
  emit (SetTimeout delay)
    {| store := store w; sessionFile := sessionFile w; now := now w;
       registry := registry w; allWindows := allWindows w;
       timers := timers w ++ [(delay, windowMeta)];
       effects := effects w |}.

Definition existsSync (w : World) : bool :=
  match sessionFile w with
  | Some _ => true
  | None => false
  end.

Definition saveSession (w : World) : World :=
  if negb (is_true (getValue (store w) "restoreSession")) then w
  else
    let w1 := emit CallGetSessionState w in
    let state := getSessionState (allWindows w1) (registry w1) in
    let sessionData :=
      VObj [ ("version", VInt 1); ("timestamp", VInt (now w1));
             ("windows", VArr (List.map object_of state)) ] in
    let w2 := writeFileSync (JSON_stringify sessionData) w1 in
    emit (Console (SessionSaved (length state))) w2.

Definition clearSession (w : World) : World :=
  if existsSync w then unlinkSync w else w.

Definition maxAge : Z := 24 * 60 * 60 * 1000.

(** [sessionData.windows.forEach((windowMeta, index) => setTimeout(...,
    index * 100))]. *)
Fixpoint forEach_setTimeout (windows : list value) (index : Z) (w : World) : World :=
  match windows with
  | [] => w
  | windowMeta :: rest =>
      forEach_setTimeout rest (index + 1) (setTimeout windowMeta (index * 100) w)
  end.

(** The timers that loop sets: window number i after i * 100 ms. *)
Fixpoint schedule (windows : list value) (index : Z) : list (Z * value) :=
  match windows with
  | [] => []
  | windowMeta :: rest => (index * 100, windowMeta) :: schedule rest (index + 1)
  end.

(** The catch block of [restoreSession]. *)
Definition restore_failed (error : string) (w : World) : World * bool :=
  (emit (Console (FailedToRestore error)) w, false).

Definition restoreSession (w : World) : World * bool :=
  if negb (is_true (getValue (store w) "restoreSession")) then (w, false)
  else
    match sessionFile w with
    | None => (w, false)
    | Some data =>
        match JSON_parse data with
        | Throw e => restore_failed e w
        | Normal sessionData =>
            match get sessionData "windows" with
            | Throw e => restore_failed e w
            | Normal windows =>
                if negb (truthy windows) || negb (isArray windows) then (w, false)
                else
                  match bind (get sessionData "timestamp") ToNumber with
                  | Throw e => restore_failed e w
                  | Normal timestamp =>
                      if gt (sub (Fin (inject_Z (now w))) timestamp) (Fin (inject_Z maxAge))
                      then (clearSession (emit (Console SessionTooOld) w), false)
                      else
                        match windows with
                        | VArr elems =>
                            let windowCount := length elems in
                            if (windowCount =? 0)%nat then (w, false)
                            else
                              (forEach_setTimeout elems 0
                                 (emit (Console (RestoringSession windowCount)) w),
                               true)
                        | _ => (w, false)
                        end
                  end
            end
        end
    end.

(** The callback [restoreSession] hands to setTimeout, run with the
    window [new BrowserWindow] returns: it reads the five properties of
    [windowMeta] (a TypeError when that is null) and calls
    [createWindow]. *)
Definition restore_window (store : settings) (defaultBounds : value)
    (windowMeta : value) (window : BrowserWindow) (reg : Registry)
    : Registry * completion Creation :=
  match
    bind (get windowMeta "url") (fun url =>
    bind (get windowMeta "appType") (fun appType =>
    bind (get windowMeta "accountType") (fun accountType =>
    bind (get windowMeta "bounds") (fun bounds =>
    bind (get windowMeta "isMaximized") (fun isMaximized =>
    Normal {| opt_url := url; opt_appType := appType; opt_accountType := accountType;
              opt_bounds := bounds; opt_isMaximized := isMaximized;
              opt_show := VBool true |})))))
  with
  | Throw e => (reg, Throw e)
  | Normal options => createWindow store defaultBounds options window reg
  end.



(** The callbacks run one after the other; [fresh k] is the window the
    k-th of them is given by [new BrowserWindow]. *)
Fixpoint fire (store : settings) (defaultBounds : value) (fresh : nat -> BrowserWindow)
    (k : nat) (callbacks : list (Z * value)) (reg : Registry)
    : Registry * list (completion Creation) :=
  match callbacks with
  | [] => (reg, [])
  | (_, windowMeta) :: rest =>
      let '(reg1, c) := restore_window store defaultBounds windowMeta (fresh k) reg in
      let '(reg2, cs) := fire store defaultBounds fresh (S k) rest reg1 in
      (reg2, c :: cs)
  end.


(** The quit handler and the periodic save that
    [initializeSessionManager] installs. *)
Definition before_quit (w : World) : World := saveSession w.

Definition autosave (w : World) : World :=
  if is_true (getValue (store w) "restoreSession") then saveSession w else w.

End SessionManager.

(** ** main.js: the start-up path *)
Module Main.
Import JS Store AppLauncher WindowManager SessionManager.

(** What processCLI returns when the process goes on: the app and the
    account named on the command line, null when none was. *)
Record CliConfig := {
  startupApp : option string;
  cli_accountType : option string
}.

Definition nullable (o : option string) : value :=
  match o with
  | Some s => VStr s
  | None => VNull
  end.

(** The main window and the splash screen constructed with it. *)
Record MainWindow := {
  main_partition : string;
  startUrl : address;
  splashUrl : string
}.

Definition createWindow (store : settings) (cliConfig : CliConfig) : completion MainWindow :=
  let enterpriseOrNormal := getValue store "enterprise-or-normal" in
  let custompage := or_else (getValue store "custompage") (VStr "home") in
  let partition :=
    if is_str "?auth=1" enterpriseOrNormal then "persist:personal" else "persist:work" in
  bind
    (if truthy (nullable (startupApp cliConfig)) then
       let accountType :=
         or_else (nullable (cli_accountType cliConfig)) (getAccountType store) in
       bind (getAppUrl store (nullable (startupApp cliConfig)) accountType)
            (fun u => Normal (Url u))
     else Normal (HomePage custompage enterpriseOrNormal))
    (fun startUrl =>
       Normal {| main_partition := partition; startUrl := startUrl;
                 splashUrl := "https://agam778.github.io/MS-365-Electron/loading" |}).



(** The classifier of the did-finish-load handler (dynamic icons), which
    reads the address and the title of the focused window as they are. *)
Definition dynamic_icon_app (url title : string) : string :=
  if includes url "&ithint=file%2cpptx" || includes title ".pptx" then "powerpoint"
  else if includes url "&ithint=file%2cdocx" || includes title ".docx" then "word"
  else if includes url "&ithint=file%2cxlsx" || includes title ".xlsx" then "excel"
  else if includes url "outlook.live.com" || includes url "outlook.office.com" then "outlook"
  else if includes url "onedrive.live.com" || includes url "onedrive.aspx" then "onedrive"
  else if includes url "teams.live.com" || includes url "teams.microsoft.com" then "teams"
  else if includes url "&ithint=onenote" || includes url "onenote.com" then "onenote"
  else "office".

(** The quit handler of main.js, over its flag isQuitting. *)
Definition before_quit (state : bool * World) : bool * World :=
  (true, saveSession (snd state)).

End Main.

(** ** The classifier as a rule table *)
Module Classifier.
Import JS.

(** The ordered rules: an app type and the texts that announce it. *)
Definition rules : list (string * list string) :=
  [ ("word", ["word"; ".docx"]);
    ("excel", ["excel"; ".xlsx"]);
    ("powerpoint", ["powerpoint"; ".pptx"]);
    ("outlook", ["outlook"]);
    ("onedrive", ["onedrive"]);
    ("onenote", ["onenote"]);
    ("teams", ["teams"]) ].

(** The first rule one of whose texts [matches], or home. *)
Fixpoint first_match (matches : string -> bool) (rs : list (string * list string)) : string :=
  match rs with
  | [] => "home"
  | (app, patterns) :: rs' =>
      if existsb matches patterns then app else first_match matches rs'
  end.

(** A text that names a file extension. *)
Definition extension_hint (pattern : string) : bool :=
  match pattern with
  | String "."%char _ => true
  | _ => false
  end.

(** The classifier as the specification words it: the rules are tried
    against the address and, for the file-extension hints, against the
    document title as well. *)
Definition classify_with_title (url title : string) : string :=
  first_match
    (fun pattern =>
       includes (toLowerCase url) pattern
       || extension_hint pattern && includes (toLowerCase title) pattern)
    rules.

End Classifier.

(** ** Concrete windows, registries and worlds used as test inputs *)
Module Sample.
Import JS Store AppLauncher WindowManager SessionManager.

Definition restored_rect : Rectangle :=
  {| rect_x := 100; rect_y := 100; rect_width := 800; rect_height := 600 |}.

Definition screen_rect : Rectangle :=
  {| rect_x := 0; rect_y := 0; rect_width := 1920; rect_height := 1080 |}.

Definition word_meta : WindowMeta :=
  {| meta_id := 1; appType := VStr "word"; accountType := VStr "work";
     url := VStr "https://microsoft365.com/launch/word?auth=2";
     bounds := rectangle restored_rect; isMaximized := VBool false;
     isFullScreen := false |}.

(** The native window 7 in three states. *)
Definition win_restored : BrowserWindow :=
  {| win_id := 7; getBounds := restored_rect; win_isMaximized := false;
     win_isFullScreen := false; getURL := "https://microsoft365.com/launch/word?auth=2" |}.

Definition win_maximized : BrowserWindow :=
  {| win_id := 7; getBounds := screen_rect; win_isMaximized := true;
     win_isFullScreen := false; getURL := "https://microsoft365.com/launch/word?auth=2" |}.

Definition win_fullscreen : BrowserWindow :=
  {| win_id := 7; getBounds := screen_rect; win_isMaximized := false;
     win_isFullScreen := true; getURL := "https://microsoft365.com/launch/word?auth=2" |}.

Definition one_window : Registry :=
  {| managedWindows := {[ 7 := word_meta ]}; windowIdCounter := 1 |}.

(** Maximize, the resize it causes, then unmaximize. *)
Definition maximize_then_unmaximize : list (BrowserWindow * event) :=
  [ (win_maximized, Maximize); (win_maximized, Resize); (win_maximized, Unmaximize) ].

Definition outlook_options : Options :=
  {| opt_url := VStr "https://outlook.live.com/mail/"; opt_appType := VStr "outlook";
     opt_accountType := VStr "personal"; opt_bounds := VUndefined;
     opt_isMaximized := VUndefined; opt_show := VUndefined |}.

Definition default_size : value :=
  VObj [ ("width", VInt 1363); ("height", VInt 799); ("x", VUndefined); ("y", VUndefined) ].

(** A snapshot taken at 1700000000000 ms, and a world around it. *)
Definition snapshot_at (timestamp : value) (windows : value) : value :=
  VObj [ ("version", VInt 1); ("timestamp", timestamp); ("windows", windows) ].

Definition old_snapshot : value :=
  snapshot_at (VInt 1700000000000) (VArr [json (object_of word_meta)]).

Definition world (settings : Store.settings) (file : option text) (time : Z) : World :=
  {| store := settings; sessionFile := file; now := time;
     registry := one_window; allWindows := [win_restored];
     timers := []; effects := [] |}.

(** A process with window 7 maximized and restore-on-start on, and
    the process that starts an hour later on the file the first saved. *)
Definition saving_world : World :=
  {| store := {[ "restoreSession" := VBool true ]}; sessionFile := None;
     now := 1700000000000; registry := one_window; allWindows := [win_maximized];
     timers := []; effects := [] |}.

Definition restoring_world : World :=
  {| store := {[ "restoreSession" := VBool true ]};
     sessionFile := sessionFile (saveSession saving_world);
     now := 1700003600000;
     registry := {| managedWindows := ∅; windowIdCounter := 0 |};
     allWindows := []; timers := []; effects := [] |}.

(** The windows Electron constructs in the second process. *)
Definition fresh_window (k : nat) : BrowserWindow :=
  {| win_id := Z.of_nat k + 1; getBounds := restored_rect; win_isMaximized := false;
     win_isFullScreen := false; getURL := "" |}.

(** The same snapshot with another timestamp, or none. *)
Definition snapshot_without_timestamp : value :=
  VObj [ ("version", VInt 1); ("windows", VArr [json (object_of word_meta)]) ].

Definition snapshot_with_null_timestamp : value :=
  snapshot_at VNull (VArr [json (object_of word_meta)]).



Definition personal_home : Store.settings :=
  {[ "enterprise-or-normal" := VStr "?auth=1"; "custompage" := VStr "home";
     "restoreSession" := VBool true ]}.

End Sample.

(** ** config/store.js: defaults and migration *)
Module Settings.
Import JS Store.

(** The names of the settings the program reads or writes: those that
    are given a default below, and hotkeyBindings of the hotkey manager.
    Each is one property of the stored document; a name with a dot would
    be a path into it. *)
Definition names : list string :=
  [ "enterprise-or-normal"; "websites-in-new-window"; "autohide-menubar";
    "windowWidth"; "windowHeight"; "customWindowSize"; "custompage";
    "useragentstring"; "externalLinks"; "blockadsandtrackers";
    "discordrpcstatus"; "dynamicicons"; "autoupdater"; "theme";
    "restoreSession"; "startMinimized"; "minimizeToTray"; "notifications";
    "globalHotkeys"; "hotkeyBindings" ].

(** [store.set(key, value)] for such a name: electron-store refuses to
    store undefined, and writes the document with the value under the
    name.  The document is JSON, so that what is read back is the value
    written when JSON keeps it, [json v = v], as it does the strings,
    booleans and fractions the program writes. *)
Definition set (key : string) (v : value) (store : settings) : completion settings :=
  match v with
  | VUndefined => Throw "TypeError"
  | _ => Normal (setValue key v store)
  end.

Definition getValueOrDefault (key : string) (defaultValue : value) (store : settings)
    : settings * completion value :=
  match getValue store key with
  | VUndefined =>
      match set key defaultValue store with
      | Normal store' => (store', Normal defaultValue)
      | Throw e => (store, Throw e)
      end
  | v => (store, Normal v)
  end.

Definition deleteValue (key : string) (store : settings) : settings :=
  delete key store.

Definition clearAll (store : settings) : settings := ∅.

(** The settings the module gives a default when it is loaded, in the
    order of the source; [userAgent] is what getOptimalUserAgent() reads
    from useragents.json. *)
Definition defaults (userAgent : string) : list (string * value) :=
  [ ("enterprise-or-normal", VStr "?auth=1");
    ("websites-in-new-window", VStr "true");
    ("autohide-menubar", VStr "false");
    ("windowWidth", VNum (Fin (Qmake 71 100)));
    ("windowHeight", VNum (Fin (Qmake 74 100)));
    ("customWindowSize", VBool false);
    ("custompage", VStr "home");
    ("useragentstring", VStr userAgent);
    ("externalLinks", VStr "true");
    ("blockadsandtrackers", VStr "false");
    ("discordrpcstatus", VStr "false");
    ("dynamicicons", VStr "true");
    ("autoupdater", VStr "true");
    ("theme", VStr "system");
    ("restoreSession", VBool false);
    ("startMinimized", VBool false);
    ("minimizeToTray", VBool false);
    ("notifications", VBool true);
    ("globalHotkeys", VBool false) ].

(** The migration of the old URL-style account setting. *)
Definition migrate (store : settings) : settings :=
  if is_str "https://microsoft365.com/?auth=1" (getValue store "enterprise-or-normal")
  then setValue "enterprise-or-normal" (VStr "?auth=1") store
  else if is_str "https://microsoft365.com/?auth=2" (getValue store "enterprise-or-normal")
  then setValue "enterprise-or-normal" (VStr "?auth=2") store
  else store.

(** What loading the module does to the store: the defaults, one
    getValueOrDefault after the other, then the migration. *)
Definition initialize (userAgent : string) (store : settings) : settings :=
  migrate
    (fold_left (fun s kv => fst (getValueOrDefault (fst kv) (snd kv) s))
       (defaults userAgent) store).

End Settings.

(** ** config/windowManager.js: the queries on the registry *)
Module WindowQueries.
Import JS Store AppLauncher WindowManager.

Definition getWindowMeta (window : BrowserWindow) (reg : Registry) : option WindowMeta :=
  managedWindows reg !! win_id window.

Definition getWindowCount (reg : Registry) : nat :=
  size (managedWindows reg).

(** [getWindowsByAccount(accountType)] for the string it is documented to
    take, over the windows BrowserWindow.getAllWindows() returns. *)
Definition getWindowsByAccount (allWindows : list BrowserWindow) (accountType : string)
    (reg : Registry) : list BrowserWindow :=
  List.filter
    (fun window =>
       match managedWindows reg !! win_id window with
       | Some meta => is_str accountType (WindowManager.accountType meta)
       | None => false
       end)
    allWindows.

Definition getWindowsByApp (allWindows : list BrowserWindow) (appType : string)
    (reg : Registry) : list BrowserWindow :=
  List.filter
    (fun window =>
       match managedWindows reg !! win_id window with
       | Some meta => is_str appType (WindowManager.appType meta)
       | None => false
       end)
    allWindows.

(** What [focusOrCreateWindow] did: it focused an existing window, which
    it restored first when it was minimized, or it created one. *)
Inductive Focus :=
| Focused (window : BrowserWindow) (restored : bool)
| Created (c : Creation).

(** [focusOrCreateWindow(appType, accountType)]; [window] is the
    BrowserWindow a creation would be handed.  The url option is computed
    before [createWindow] is entered. *)
Definition focusOrCreateWindow (store : settings) (defaultBounds : value)
    (allWindows : list BrowserWindow) (isMinimized : BrowserWindow -> bool)
    (window : BrowserWindow) (appType : string) (accountType : value) (reg : Registry)
    : Registry * completion Focus :=
  match getWindowsByApp allWindows appType reg with
  | existing :: _ => (reg, Normal (Focused existing (isMinimized existing)))
  | [] =>
      match getAppUrl store (VStr appType) accountType with
      | Throw e => (reg, Throw e)
      | Normal u =>
          let (reg', c) :=
            createWindow store defaultBounds
              {| opt_url := u; opt_appType := VStr appType;
                 opt_accountType := accountType; opt_bounds := VUndefined;
                 opt_isMaximized := VUndefined; opt_show := VUndefined |}
              window reg in
          (reg', bind c (fun c => Normal (Created c)))
      end
  end.

(** The registries that calls of [createWindow] (with any options,
    returning or throwing) and events lead to from a given one. *)
Inductive evolves (reg : Registry) : Registry -> Prop :=
| evolves_here : evolves reg reg
| evolves_createWindow store defaultBounds options window reg' :
    evolves reg reg' ->
    evolves reg (fst (createWindow store defaultBounds options window reg'))
| evolves_event window e reg' :
    evolves reg reg' -> evolves reg (handle window e reg').

(** The counter is not negative, every record carries a counter value
    that was handed out, and no two records carry the same one. *)
Definition well_numbered (reg : Registry) : Prop :=
  0 <= windowIdCounter reg
  /\ (forall id m, managedWindows reg !! id = Some m ->
                0 < meta_id m <= windowIdCounter reg)
  /\ (forall id1 id2 m1 m2,
        managedWindows reg !! id1 = Some m1 ->
        managedWindows reg !! id2 = Some m2 ->
        meta_id m1 = meta_id m2 -> id1 = id2).

(** [createWindow()]: no option is given. *)
Definition no_options : Options :=
  {| opt_url := VUndefined; opt_appType := VUndefined; opt_accountType := VUndefined;
     opt_bounds := VUndefined; opt_isMaximized := VUndefined; opt_show := VUndefined |}.

(** The registry of a module that was just loaded. *)
Definition initial : Registry := {| managedWindows := ∅; windowIdCounter := 0 |}.

End WindowQueries.

(** ** config/appLauncher.js: launching apps *)
Module Launch.
Import JS Store AppLauncher WindowManager.

Definition APP_NAMES : list (string * string) :=
  [ ("word", "Word"); ("excel", "Excel"); ("powerpoint", "PowerPoint");
    ("outlook", "Outlook"); ("onedrive", "OneDrive"); ("onenote", "OneNote");
    ("teams", "Teams"); ("allapps", "All Apps"); ("home", "Home") ].

Fixpoint lookup_name (name : string) (table : list (string * string)) : option string :=
  match table with
  | [] => None
  | (k, n) :: table' => if String.eqb k name then Some n else lookup_name name table'
  end.

(** What [getAppDisplayName] returns: a string or, for a name that
    APP_NAMES inherits from Object.prototype, the member found under it
    (the function Object, Object.prototype itself or a method). *)
Inductive DisplayName :=
| Name (s : string)
| Member (name : string).

(** [APP_NAMES[appName.toLowerCase()] || appName]; an inherited member
    is truthy. *)
Definition getAppDisplayName (appName : string) : DisplayName :=
  match lookup_name (toLowerCase appName) APP_NAMES with
  | Some name => if String.eqb name "" then Name appName else Name name
  | None =>
      if inherited (toLowerCase appName) then Member (toLowerCase appName)
      else Name appName
  end.

(** The ids and names of [getAppList()]. *)
Definition getAppList : list (string * string) :=
  [ ("word", "Word"); ("excel", "Excel"); ("powerpoint", "PowerPoint");
    ("outlook", "Outlook"); ("onedrive", "OneDrive"); ("onenote", "OneNote");
    ("teams", "Teams"); ("allapps", "All Apps") ].

(** The options of [launchApp]; an absent option is undefined. *)
Record LaunchOptions := {
  launch_accountType : value;
  launch_forceNewWindow : value;
  launch_focusedWindow : value;
  launch_action : value
}.

(** What a launch asked of Electron: the focused window loads an
    address, or a window is constructed in a partition and loads it. *)
Inductive Launched :=
| LoadedInFocused (focused : BrowserWindow) (loaded : address)
| NewWindow (partition : string) (loaded : address).


Definition compose_personal : string := "https://outlook.live.com/mail/deeplink/compose".
Definition compose_work : string := "https://outlook.office.com/mail/deeplink/compose".
Definition new_word_personal : string :=
  "https://microsoft365.com/launch/word?auth=1&action=new".
Definition new_word_work : string :=
  "https://microsoft365.com/launch/word?auth=2&action=new".

(** [launchApp(appName, options)] for a string [appName]; [focused] is
    what BrowserWindow.getFocusedWindow() returns.  The size of a new
    window is left out. *)
Definition launchApp (store : settings) (focused : option BrowserWindow)
    (appName : string) (options : LaunchOptions) : completion Launched :=
  let accountType := or_default (launch_accountType options) (getAccountType store) in
  let forceNewWindow := or_default (launch_forceNewWindow options) (VBool false) in
  let focusedWindow := or_default (launch_focusedWindow options) (VBool false) in
  let action := or_default (launch_action options) VNull in
  bind (getAppUrl store (VStr appName) accountType) (fun url0 =>
    let url :=
      if is_str "compose" action && String.eqb (toLowerCase appName) "outlook"
      then VStr (if is_str "work" accountType then compose_work else compose_personal)
      else if is_str "new" action && String.eqb (toLowerCase appName) "word"
      then VStr (if is_str "work" accountType then new_word_work else new_word_personal)
      else url0 in
    let openInNewWindow :=
      or_else forceNewWindow
        (VBool (is_str "true" (getValue store "websites-in-new-window"))) in
    let create := NewWindow (getPartition store accountType) (Url url) in
    if negb (truthy openInNewWindow) && negb (truthy focusedWindow) then
      match focused with
      | Some w => Normal (LoadedInFocused w (Url url))
      | None => Normal create
      end
    else if truthy focusedWindow then
      match focused with
      | Some w => Normal (LoadedInFocused w (Url url))
      | None => Normal create
      end
    else Normal create).





End Launch.

(** ** config/cli.js: the command line *)
Module Cli.
Import JS Store AppLauncher.

Definition SUCCESS : Z := 0.
Definition INVALID_ARGUMENT : Z := 1.
Definition UNKNOWN_APP : Z := 2.
Definition FILE_NOT_FOUND : Z := 3.

(** The object [parsed] of parseArgs; null is [None]. *)
Record Parsed := {
  p_app : option string;
  p_action : option string;
  p_file : option string;
  p_account : option string;
  p_help : bool;
  p_version : bool;
  unknownArgs : list string
}.

Definition nothing : Parsed :=
  {| p_app := None; p_action := None; p_file := None; p_account := None;
     p_help := false; p_version := false; unknownArgs := [] |}.

Definition startsWith (s prefix : string) : bool :=
  match starts_with prefix s with
  | Some _ => true
  | None => false
  end.

(** The arguments of Electron and Chromium and the field codes of a
    desktop entry, which the loop passes over. *)
Definition internal (arg : string) : bool :=
  startsWith arg "--ozone" || startsWith arg "--enable" || startsWith arg "--disable"
  || startsWith arg "--no-"
  || String.eqb arg "%U" || String.eqb arg "%u" || String.eqb arg "%F"
  || String.eqb arg "%f".

(** [nextArg && !nextArg.startsWith("--")] for an argument that is
    there. *)
Definition is_value (nextArg : string) : bool :=
  negb (String.eqb nextArg "") && negb (startsWith nextArg "--").

Definition lower_byte (c : ascii) : ascii :=
  let n := nat_of_ascii c in
  if ((65 <=? n) && (n <=? 90))%nat then ascii_of_nat (n + 32) else c.

Fixpoint lower_ascii (s : string) : string :=
  match s with
  | EmptyString => EmptyString
  | String c s' => String (lower_byte c) (lower_ascii s')
  end.

Fixpoint endsWith (s suffix : string) : bool :=
  String.eqb s suffix
  || match s with
     | String _ s' => endsWith s' suffix
     | EmptyString => false
     end.

(** [arg.match(/\.(docx?|xlsx?|pptx?|pdf)$/i)]: without the u flag a
    character outside ASCII matches no ASCII letter, so the test is on the
    bytes with the ASCII capitals lowered. *)
Definition is_document (arg : string) : bool :=
  existsb (endsWith (lower_ascii arg))
    [".doc"; ".docx"; ".xls"; ".xlsx"; ".ppt"; ".pptx"; ".pdf"].

Definition set_app (a : string) (p : Parsed) : Parsed :=
  {| p_app := Some a; p_action := p_action p; p_file := p_file p;
     p_account := p_account p; p_help := p_help p; p_version := p_version p;
     unknownArgs := unknownArgs p |}.

Definition set_action (a : string) (p : Parsed) : Parsed :=
  {| p_app := p_app p; p_action := Some a; p_file := p_file p;
     p_account := p_account p; p_help := p_help p; p_version := p_version p;
     unknownArgs := unknownArgs p |}.

Definition set_file (f : string) (p : Parsed) : Parsed :=
  {| p_app := p_app p; p_action := p_action p; p_file := Some f;
     p_account := p_account p; p_help := p_help p; p_version := p_version p;
     unknownArgs := unknownArgs p |}.

Definition set_account (a : string) (p : Parsed) : Parsed :=
  {| p_app := p_app p; p_action := p_action p; p_file := p_file p;
     p_account := Some a; p_help := p_help p; p_version := p_version p;
     unknownArgs := unknownArgs p |}.

Definition set_help (p : Parsed) : Parsed :=
  {| p_app := p_app p; p_action := p_action p; p_file := p_file p;
     p_account := p_account p; p_help := true; p_version := p_version p;
     unknownArgs := unknownArgs p |}.

Definition set_version (p : Parsed) : Parsed :=
  {| p_app := p_app p; p_action := p_action p; p_file := p_file p;
     p_account := p_account p; p_help := p_help p; p_version := true;
     unknownArgs := unknownArgs p |}.

Definition push_unknown (arg : string) (p : Parsed) : Parsed :=
  {| p_app := p_app p; p_action := p_action p; p_file := p_file p;
     p_account := p_account p; p_help := p_help p; p_version := p_version p;
     unknownArgs := unknownArgs p ++ [arg] |}.

(** The loop of parseArgs from index [i] on, over the arguments that are
    left.  An option that takes a value consumes the next argument when
    there is one that is not empty and does not start with two dashes. *)
Function parse (args : list string) (parsed : Parsed) {struct args} : Parsed :=
  match args with
  | [] => parsed
  | arg :: rest =>
      if internal arg then parse rest parsed
      else if String.eqb arg "--app" then
        match rest with
        | nextArg :: rest' =>
            if is_value nextArg then parse rest' (set_app (toLowerCase nextArg) parsed)
            else parse rest parsed
        | [] => parsed
        end
      else if String.eqb arg "--compose" then
        parse rest (set_action "compose" (set_app "outlook" parsed))
      else if String.eqb arg "--new" then parse rest (set_action "new" parsed)
      else if String.eqb arg "--open" then
        match rest with
        | nextArg :: rest' =>
            if is_value nextArg then parse rest' (set_file nextArg parsed)
            else parse rest parsed
        | [] => parsed
        end
      else if String.eqb arg "--account" then
        match rest with
        | nextArg :: rest' =>
            if is_value nextArg then parse rest' (set_account (toLowerCase nextArg) parsed)
            else parse rest parsed
        | [] => parsed
        end
      else if String.eqb arg "--help" || String.eqb arg "-h" then parse rest (set_help parsed)
      else if String.eqb arg "--version" || String.eqb arg "-v" then
        parse rest (set_version parsed)
      else if negb (startsWith arg "--") && negb (startsWith arg "-") then
        if is_document arg then parse rest (set_file arg parsed)
        else parse rest (push_unknown arg parsed)
      else parse rest (push_unknown arg parsed)
  end.

(** [parseArgs()], over process.argv. *)
Definition parseArgs (argv : list string) : Parsed :=
  parse (skipn 2 argv) nothing.

(** The result of validateArgs: valid, or not with an exit code (the
    text of the error is left out). *)
Inductive Validation :=
| Valid
| Invalid (exitCode : Z).

Definition validApps : list string := List.map fst Launch.getAppList.

Definition validateArgs (parsed : Parsed) : Validation :=
  if truthy (Main.nullable (p_app parsed))
     && negb (existsb (fun a => is_str a (Main.nullable (p_app parsed))) validApps)
  then Invalid UNKNOWN_APP
  else if truthy (Main.nullable (p_account parsed))
          && negb (existsb (fun a => is_str a (Main.nullable (p_account parsed)))
                     ["personal"; "work"])
  then Invalid INVALID_ARGUMENT
  else if is_str "new" (Main.nullable (p_action parsed))
          && negb (truthy (Main.nullable (p_app parsed)))
  then Invalid INVALID_ARGUMENT
  else Valid.

(** What processCLI returns: an exit with a code, or the start-up
    configuration. *)
Inductive Outcome :=
| Exit (code : Z)
| Continue (config : Main.CliConfig) (startupAction startupFile : option string).

Definition processCLI (argv : list string) : Outcome :=
  let parsed := parseArgs argv in
  if p_help parsed then Exit SUCCESS
  else if p_version parsed then Exit SUCCESS
  else
    match validateArgs parsed with
    | Invalid exitCode => Exit exitCode
    | Valid =>
        Continue {| Main.startupApp := p_app parsed;
                    Main.cli_accountType := p_account parsed |}
                 (p_action parsed) (p_file parsed)
    end.

End Cli.

(** ** config/preferences.js: reading and changing preferences

    electron-store refuses to set a key to undefined: [Settings.set]
    throws a TypeError then.  A number that is no integer stands for the
    decimal it is written as; the module stores and compares such numbers
    and computes nothing from them. *)
Module Preferences.
Import JS Store.

(** [v === q] for a number literal [q]. *)
Definition is_num (q : Q) (v : value) : bool :=
  match v with
  | VNum (Fin q') => Qeq_bool q' q
  | _ => false
  end.

Definition decimal (numerator : Z) (denominator : positive) : value :=
  VNum (Fin (Qmake numerator denominator)).

Definition getWindowSizePreset (store : settings) : string :=
  if is_true (getValue store "customWindowSize") then "custom"
  else
    let width := getValue store "windowWidth" in
    let height := getValue store "windowHeight" in
    if is_num (Qmake 71 100) width && is_num (Qmake 74 100) height then "default"
    else if is_num (Qmake 6 10) width && is_num (Qmake 6 10) height then "60"
    else if is_num (Qmake 7 10) width && is_num (Qmake 7 10) height then "70"
    else if is_num (Qmake 8 10) width && is_num (Qmake 8 10) height then "80"
    else if is_num (Qmake 9 10) width && is_num (Qmake 9 10) height then "90"
    else if is_num 1 width && is_num 1 height then "100"
    else "default".

(** [getAllPreferences()]; [shouldUseDarkColors] is what nativeTheme
    answers. *)
Definition getAllPreferences (shouldUseDarkColors : bool) (store : settings) : value :=
  VObj
    [ ("accountType",
       VStr (if is_str "?auth=2" (getValue store "enterprise-or-normal")
             then "work" else "personal"));
      ("restoreSession", VBool (is_true (getValue store "restoreSession")));
      ("startMinimized", VBool (is_true (getValue store "startMinimized")));
      ("minimizeToTray", VBool (is_true (getValue store "minimizeToTray")));
      ("customPage", or_else (getValue store "custompage") (VStr "home"));
      ("windowSize", VStr (getWindowSizePreset store));
      ("customWindowSize", VBool (is_true (getValue store "customWindowSize")));
      ("windowWidth", or_else (getValue store "windowWidth") (decimal 71 100));
      ("windowHeight", or_else (getValue store "windowHeight") (decimal 74 100));
      ("openInNewWindow", VBool (is_str "true" (getValue store "websites-in-new-window")));
      ("autoHideMenuBar", VBool (is_str "true" (getValue store "autohide-menubar")));
      ("theme", or_else (getValue store "theme") (VStr "system"));
      ("blockAdsAndTrackers", VBool (is_str "true" (getValue store "blockadsandtrackers")));
      ("externalLinks", VBool (is_str "true" (getValue store "externalLinks")));
      ("userAgent", getValue store "useragentstring");
      ("discordRpc", VBool (is_str "true" (getValue store "discordrpcstatus")));
      ("autoUpdates", VBool (is_str "true" (getValue store "autoupdater")));
      ("dynamicIcons", VBool (is_str "true" (getValue store "dynamicicons")));
      ("globalHotkeys", VBool (is_true (getValue store "globalHotkeys")));
      ("systemTheme", VStr (if shouldUseDarkColors then "dark" else "light")) ].

(** What setPreference returns, and the theme source it hands to
    nativeTheme when the key is theme. *)
Record Result := {
  success : bool;
  requiresRestart : bool;
  themeSource : option string
}.

(** Whether the property key a value converts to is the decimal [k] of
    the integer [n]: the string itself, the number, or an array of one
    such element. *)
Fixpoint key_is_number (k : string) (n : Z) (v : value) : bool :=
  match v with
  | VStr s => String.eqb s k
  | VNum (Fin q) => Qeq_bool q (inject_Z n)
  | VArr [e] => key_is_number k n e
  | _ => false
  end.

(** [const size = sizeMap[value] || sizeMap.default] followed by the
    reads of size.w and size.h.  An inherited name yields a function or
    Object.prototype, whose w is undefined, which the store then refuses;
    a value that cannot be converted to a property key throws as well. *)
Definition sizeMap (v : value) : completion (value * value) :=
  if toString_throws v then Throw "TypeError"
  else if key_is "default" v then Normal (decimal 71 100, decimal 74 100)
  else if key_is_number "60" 60 v then Normal (decimal 6 10, decimal 6 10)
  else if key_is_number "70" 70 v then Normal (decimal 7 10, decimal 7 10)
  else if key_is_number "80" 80 v then Normal (decimal 8 10, decimal 8 10)
  else if key_is_number "90" 90 v then Normal (decimal 9 10, decimal 9 10)
  else if key_is_number "100" 100 v then Normal (VInt 1, VInt 1)
  else if existsb (fun name => key_is name v) inherited_names then Throw "TypeError"
  else Normal (decimal 71 100, decimal 74 100).

Definition done (restart : bool) (store : settings) : settings * completion Result :=
  (store, Normal {| success := true; requiresRestart := restart; themeSource := None |}).

(** [setValue(k, value)] with the value as it came. *)
Definition raw (k : string) (v : value) (restart : bool) (store : settings)
    : settings * completion Result :=
  match Settings.set k v store with
  | Normal store' => done restart store'
  | Throw e => (store, Throw e)
  end.

(** [setValue(k, value ? "true" : "false")]. *)
Definition toggle (k : string) (v : value) (restart : bool) (store : settings)
    : settings * completion Result :=
  done restart (setValue k (VStr (if truthy v then "true" else "false")) store).

(** [setPreference(key, value)]: the store it leaves, and what it
    returns or throws. *)
Definition setPreference (key : string) (v : value) (store : settings)
    : settings * completion Result :=
  if String.eqb key "accountType" then
    done true
      (setValue "enterprise-or-normal"
         (VStr (if is_str "work" v then "?auth=2" else "?auth=1")) store)
  else if String.eqb key "restoreSession" then raw "restoreSession" v false store
  else if String.eqb key "startMinimized" then raw "startMinimized" v false store
  else if String.eqb key "minimizeToTray" then raw "minimizeToTray" v false store
  else if String.eqb key "customPage" then raw "custompage" v true store
  else if String.eqb key "windowSize" then
    if is_str "custom" v then done true (setValue "customWindowSize" (VBool true) store)
    else
      let store1 := setValue "customWindowSize" (VBool false) store in
      match sizeMap v with
      | Throw e => (store1, Throw e)
      | Normal (w, h) => done true (setValue "windowHeight" h (setValue "windowWidth" w store1))
      end
  else if String.eqb key "customWindowWidth" then
    match Settings.set "windowWidth" v store with
    | Normal store1 => done true (setValue "customWindowSize" (VBool true) store1)
    | Throw e => (store, Throw e)
    end
  else if String.eqb key "customWindowHeight" then
    match Settings.set "windowHeight" v store with
    | Normal store1 => done true (setValue "customWindowSize" (VBool true) store1)
    | Throw e => (store, Throw e)
    end
  else if String.eqb key "openInNewWindow" then toggle "websites-in-new-window" v false store
  else if String.eqb key "autoHideMenuBar" then toggle "autohide-menubar" v true store
  else if String.eqb key "theme" then
    match Settings.set "theme" v store with
    | Normal store1 =>
        (store1,
         Normal {| success := true; requiresRestart := false;
                   themeSource :=
                     Some (if is_str "dark" v then "dark"
                           else if is_str "light" v then "light" else "system") |})
    | Throw e => (store, Throw e)
    end
  else if String.eqb key "blockAdsAndTrackers" then toggle "blockadsandtrackers" v false store
  else if String.eqb key "externalLinks" then toggle "externalLinks" v false store
  else if String.eqb key "userAgent" then raw "useragentstring" v true store
  else if String.eqb key "discordRpc" then toggle "discordrpcstatus" v false store
  else if String.eqb key "autoUpdates" then toggle "autoupdater" v false store
  else if String.eqb key "dynamicIcons" then toggle "dynamicicons" v false store
  else if String.eqb key "globalHotkeys" then raw "globalHotkeys" v false store
  else (store, Normal {| success := false; requiresRestart := false; themeSource := None |}).

(** The controls of the preferences dialog: the switches, which send
    their checked state, and the selects and radio groups, which send the
    value of the chosen option. *)
Definition toggles : list string :=
  [ "restoreSession"; "startMinimized"; "minimizeToTray"; "autoHideMenuBar";
    "openInNewWindow"; "dynamicIcons"; "blockAdsAndTrackers"; "externalLinks";
    "autoUpdates"; "discordRpc"; "globalHotkeys" ].

Definition choices : list (string * list string) :=
  [ ("accountType", ["personal"; "work"]);
    ("customPage", ["home"; "create"; "mycontent"; "apps"]);
    ("windowSize", ["default"; "60"; "70"; "80"; "90"; "100"]);
    ("theme", ["system"; "light"; "dark"]);
    ("userAgent", ["Linux_x86_64"; "Linux_aarch64"]) ].

(** The settings each preference key is written to. *)
Definition writes : list (string * string) :=
  [ ("accountType", "enterprise-or-normal"); ("restoreSession", "restoreSession");
    ("startMinimized", "startMinimized"); ("minimizeToTray", "minimizeToTray");
    ("customPage", "custompage");
    ("windowSize", "customWindowSize"); ("windowSize", "windowWidth");
    ("windowSize", "windowHeight");
    ("customWindowWidth", "windowWidth"); ("customWindowWidth", "customWindowSize");
    ("customWindowHeight", "windowHeight"); ("customWindowHeight", "customWindowSize");
    ("openInNewWindow", "websites-in-new-window"); ("autoHideMenuBar", "autohide-menubar");
    ("theme", "theme"); ("blockAdsAndTrackers", "blockadsandtrackers");
    ("externalLinks", "externalLinks"); ("userAgent", "useragentstring");
    ("discordRpc", "discordrpcstatus"); ("autoUpdates", "autoupdater");
    ("dynamicIcons", "dynamicicons"); ("globalHotkeys", "globalHotkeys") ].

End Preferences.

(** ** config/sessionManager.js: switching restore on and off, and the
    summary of the session file *)
Module SessionControl.
Import JS Store AppLauncher WindowManager SessionManager.

Definition with_store (settings : Store.settings) (w : World) : World :=
  {| store := settings; sessionFile := sessionFile w; now := now w;
     registry := registry w; allWindows := allWindows w; timers := timers w;
     effects := effects w |}.

(** The same process when Date.now() answers [time]. *)
Definition at_time (time : Z) (w : World) : World :=
  {| store := store w; sessionFile := sessionFile w; now := time;
     registry := registry w; allWindows := allWindows w; timers := timers w;
     effects := effects w |}.

Definition isSessionRestoreEnabled (w : World) : bool :=
  is_true (getValue (store w) "restoreSession").

Definition enableSessionRestore (w : World) : World :=
  with_store (setValue "restoreSession" (VBool true) (store w)) w.

Definition disableSessionRestore (w : World) : World :=
  clearSession (with_store (setValue "restoreSession" (VBool false) (store w)) w).

(** The length of a string in UTF-16 code units, counted on its UTF-8
    bytes: one for every byte that starts a character, and one more when
    the character takes four bytes. *)
Fixpoint utf16_length (s : string) : Z :=
  match s with
  | EmptyString => 0
  | String c s' =>
      let n := nat_of_ascii c in
      (if ((128 <=? n) && (n <? 192))%nat then 0
       else if (240 <=? n)%nat then 2 else 1)
      + utf16_length s'
  end.

(** [v.length] for a value that is neither null nor undefined. *)
Definition length_of (v : value) : value :=
  match v with
  | VStr s => VInt (utf16_length s)
  | VArr l => VInt (Z.of_nat (length l))
  | VObj ps => default VUndefined (assoc "length" ps)
  | _ => VUndefined
  end.

(** [v?.length]. *)
Definition optional_length (v : value) : value :=
  match v with
  | VUndefined | VNull => VUndefined
  | _ => length_of v
  end.

(** The object getSessionInfo returns. *)
Record SessionInfo := {
  windowCount : value;
  timestamp : value;
  age : number
}.

(** [getSessionInfo()]: null ([None]) when there is no file or anything
    throws. *)
Definition getSessionInfo (w : World) : option SessionInfo :=
  match sessionFile w with
  | None => None
  | Some data =>
      match
        bind (JSON_parse data) (fun sessionData =>
        bind (get sessionData "windows") (fun windows =>
        bind (get sessionData "timestamp") (fun timestamp =>
        bind (ToNumber timestamp) (fun t =>
        Normal {| windowCount := or_else (optional_length windows) (VInt 0);
                  timestamp := timestamp;
                  age := sub (Fin (inject_Z (now w))) t |}))))
      with
      | Normal info => Some info
      | Throw _ => None
      end
  end.

(** A value whose properties can be read: anything but null and
    undefined. *)
Definition readable (v : value) : bool :=
  match v with
  | VUndefined | VNull => false
  | _ => true
  end.

End SessionControl.

(** ** config/mediaState.js: camera, microphone and screen-share state

    The flags are booleans: the module itself assigns true and false, and
    the script it injects into the pages sends booleans.  The state that
    is emitted with media-state-changed is the state at that moment. *)
Module MediaState.
Import JS WindowManager.

Record Media := {
  cameraActive : bool;
  microphoneActive : bool;
  screenShareActive : bool;
  activeMediaWindows : gset Z
}.

(** The state of a module that was just loaded. *)
Definition idle : Media :=
  {| cameraActive := false; microphoneActive := false; screenShareActive := false;
     activeMediaWindows := ∅ |}.

Definition isAnyMediaActive (m : Media) : bool :=
  cameraActive m || microphoneActive m || screenShareActive m.

(** [if (windowId)] for [window?.id] or the default null: an id that is
    there and is not 0. *)
Definition truthy_id (windowId : option Z) : option Z :=
  match windowId with
  | Some id => if id =? 0 then None else Some id
  | None => None
  end.

(** [if (windowId) { if (active) activeMediaWindows.add(windowId) }]. *)
Definition track (active : bool) (windowId : option Z) (windows : gset Z) : gset Z :=
  match truthy_id windowId with
  | Some id => if active then {[ id ]} ∪ windows else windows
  | None => windows
  end.

(** [if (previousState !== active) app.emit(..., getMediaState())]. *)
Definition changed (previousState active : bool) (m : Media) : list Media :=
  if Bool.eqb previousState active then [] else [m].

Definition setCameraActive (active : bool) (windowId : option Z) (m : Media)
    : Media * list Media :=
  let m' := {| cameraActive := active; microphoneActive := microphoneActive m;
               screenShareActive := screenShareActive m;
               activeMediaWindows := track active windowId (activeMediaWindows m) |} in
  (m', changed (cameraActive m) active m').

Definition setMicrophoneActive (active : bool) (windowId : option Z) (m : Media)
    : Media * list Media :=
  let m' := {| cameraActive := cameraActive m; microphoneActive := active;
               screenShareActive := screenShareActive m;
               activeMediaWindows := track active windowId (activeMediaWindows m) |} in
  (m', changed (microphoneActive m) active m').

Definition setScreenShareActive (active : bool) (windowId : option Z) (m : Media)
    : Media * list Media :=
  let m' := {| cameraActive := cameraActive m; microphoneActive := microphoneActive m;
               screenShareActive := active;
               activeMediaWindows := track active windowId (activeMediaWindows m) |} in
  (m', changed (screenShareActive m) active m').

Definition clearWindowMediaState (windowId : Z) (m : Media) : Media * list Media :=
  let windows := activeMediaWindows m ∖ {[ windowId ]} in
  if decide (size windows = 0%nat) then
    let m' := {| cameraActive := false; microphoneActive := false;
                 screenShareActive := false; activeMediaWindows := windows |} in
    (m', if isAnyMediaActive m then [m'] else [])
  else
    ({| cameraActive := cameraActive m; microphoneActive := microphoneActive m;
        screenShareActive := screenShareActive m; activeMediaWindows := windows |}, []).

Definition clearAllMediaState (m : Media) : Media * list Media :=
  (idle, if isAnyMediaActive m then [idle] else []).

Definition getMediaIndicatorType (m : Media) : option string :=
  if cameraActive m && microphoneActive m then Some "camera-mic"
  else if cameraActive m then Some "camera"
  else if microphoneActive m then Some "microphone"
  else if screenShareActive m then Some "screen-share"
  else None.

(** The message media:state-changed. *)
Record StateChanged := {
  data_active : bool;
  data_camera : bool;
  data_microphone : bool
}.

(** What reaches the listeners of initializeMediaState: the two
    messages, each with the id of the window that sent it (None when
    BrowserWindow.fromWebContents finds none), and the two app events. *)
Inductive signal :=
| MediaStateChanged (windowId : option Z) (data : StateChanged)
| ScreenShareChanged (windowId : option Z) (active : bool)
| WindowAllClosed
| WindowClosed (windowId : Z).

Definition listen (s : signal) (m : Media) : Media * list Media :=
  match s with
  | MediaStateChanged windowId data =>
      if data_active data then
        let (m1, e1) :=
          if data_camera data then setCameraActive true windowId m else (m, []) in
        let (m2, e2) :=
          if data_microphone data then setMicrophoneActive true windowId m1 else (m1, []) in
        (m2, (e1 ++ e2)%list)
      else
        match truthy_id windowId with
        | Some id => clearWindowMediaState id m
        | None =>
            let (m1, e1) := setCameraActive false None m in
            let (m2, e2) := setMicrophoneActive false None m1 in
            (m2, (e1 ++ e2)%list)
        end
  | ScreenShareChanged windowId active => setScreenShareActive active windowId m
  | WindowAllClosed => clearAllMediaState m
  | WindowClosed windowId => clearWindowMediaState windowId m
  end.

(** The state after a run of signals. *)
Definition heard (signals : list signal) (m : Media) : Media :=
  fold_left (fun m s => fst (listen s m)) signals m.

(** A message that comes with the id of a window. *)
Definition from_window (s : signal) : Prop :=
  match s with
  | MediaStateChanged windowId _ | ScreenShareChanged windowId _ =>
      exists id, windowId = Some id /\ id <> 0
  | WindowAllClosed | WindowClosed _ => True
  end.

(** The closed handler that [createWindow] installs on the window of the
    creation [c]: the record under the native id is deleted, and
    window-closed is emitted with the number the window got from the
    counter, which the listener above receives. *)
Definition closed (c : Creation) (window : BrowserWindow) (state : Registry * Media)
    : Registry * Media :=
  (handle window Closed (fst state),
   fst (listen (WindowClosed (meta_id (created_meta c))) (snd state))).

End MediaState.

(** ** config/theme.js: the theme preference

    Electron's nativeTheme is its themeSource together with what the
    system prefers: shouldUseDarkColors is true for the source dark, false
    for light, and the system's preference otherwise.  The style sheets
    injected into the windows are left out. *)
Module Theme.
Import JS Store.

Record NativeTheme := {
  themeSource : string;
  systemDark : bool
}.

Definition shouldUseDarkColors (native : NativeTheme) : bool :=
  if String.eqb (themeSource native) "dark" then true
  else if String.eqb (themeSource native) "light" then false
  else systemDark native.

Definition getThemePreference (store : settings) : value :=
  or_else (getValue store "theme") (VStr "system").

(** The source [applyTheme(theme)] assigns. *)
Definition source_of (theme : value) : string :=
  if is_str "dark" theme then "dark"
  else if is_str "light" theme then "light"
  else "system".

Definition applyTheme (theme : value) (native : NativeTheme) : NativeTheme :=
  {| themeSource := source_of theme; systemDark := systemDark native |}.

Definition isDarkMode (native : NativeTheme) : bool := shouldUseDarkColors native.

Definition setThemePreference (theme : value) (state : settings * NativeTheme)
    : completion (settings * NativeTheme) :=
  bind (Settings.set "theme" theme (fst state))
       (fun store' => Normal (store', applyTheme theme (snd state))).

(** The first statements of initializeTheme: the saved preference is
    applied. *)
Definition initializeTheme (state : settings * NativeTheme) : settings * NativeTheme :=
  (fst state, applyTheme (getThemePreference (fst state)) (snd state)).

Definition toggleTheme (state : settings * NativeTheme)
    : completion (settings * NativeTheme) :=
  let current := getThemePreference (fst state) in
  if is_str "system" current then
    setThemePreference (VStr (if isDarkMode (snd state) then "light" else "dark")) state
  else if is_str "dark" current then setThemePreference (VStr "light") state
  else setThemePreference (VStr "dark") state.

End Theme.

(** ** Further concrete inputs *)
Module Scenario.
Import JS Store AppLauncher WindowManager WindowQueries MediaState.

(** Two windows are created from the empty registry and the first is
    maximized. *)
Definition two_windows : Registry :=
  handle Sample.win_restored Maximize
    (fst (createWindow ∅ Sample.default_size Sample.outlook_options (Sample.fresh_window 7)
            (fst (createWindow ∅ Sample.default_size Sample.outlook_options
                    Sample.win_restored initial)))).

(** Window 7 reports a camera stream and then its end. *)
Definition camera_on : StateChanged :=
  {| data_active := true; data_camera := true; data_microphone := false |}.

Definition all_off : StateChanged :=
  {| data_active := false; data_camera := false; data_microphone := false |}.

Definition camera_call : list signal :=
  [ MediaStateChanged (Some 7) camera_on; MediaStateChanged (Some 7) all_off ].

End Scenario.

(** * Properties *)

Import JS Store AppLauncher WindowManager SessionManager.
Local Open Scope list_scope.

(** ** The coercions on concrete inputs *)

Example StringToNumber_literals :
  StringToNumber "  12 " = Fin (inject_Z 12)
  /\ StringToNumber "" = Fin 0
  /\ StringToNumber "0x1F" = Fin (inject_Z 31)
  /\ StringToNumber "1.5e3" = Fin (inject_Z 1500)
  /\ StringToNumber ".5" = Fin (Qmake 5 10)
  /\ StringToNumber "-Infinity" = Inf true
  /\ StringToNumber (String (ascii_of_nat 194) (String (ascii_of_nat 160) "42"))
     = Fin (inject_Z 42).
Proof. repeat split; reflexivity. Qed.

Example StringToNumber_not_literals :
  StringToNumber "abc" = NaN
  /\ StringToNumber "." = NaN
  /\ StringToNumber "1e" = NaN
  /\ StringToNumber "-0x10" = NaN
  /\ StringToNumber "1,2" = NaN
  /\ StringToNumber "12px" = NaN
  /\ StringToNumber "2023-11-14T22:13:20Z" = NaN.
Proof. repeat split; reflexivity. Qed.

Example ToNumber_of_arrays_and_objects :
  ToNumber (VArr []) = Normal (Fin 0)
  /\ ToNumber (VArr [VArr [VStr " 7 "]]) = Normal (Fin (inject_Z 7))
  /\ ToNumber (VArr [VInt 1; VInt 2]) = Normal NaN
  /\ ToNumber (VArr [VBool true]) = Normal NaN
  /\ ToNumber (VObj [("valueOf", VInt 3)]) = Normal NaN
  /\ ToNumber (VObj [("toString", VNull)]) = Throw "TypeError".
Proof. repeat split; reflexivity. Qed.

Example json_drops_undefined :
  json (VObj [ ("width", VInt 1363); ("height", VInt 799);
               ("x", VUndefined); ("y", VUndefined) ])
  = VObj [ ("width", VInt 1363); ("height", VInt 799) ]
  /\ json (VArr [VUndefined; VNum NaN; VInt 3]) = VArr [VNull; VNull; VInt 3].
Proof. split; reflexivity. Qed.

Example toLowerCase_ascii :
  toLowerCase "HTTPS://X/Word.DOCX?k=1" = "https://x/word.docx?k=1"
  /\ toLowerCase (String (ascii_of_nat 226) (String (ascii_of_nat 132)
                    (String (ascii_of_nat 170) "ELVIN"))) = "kelvin".
Proof. split; reflexivity. Qed.

Example detectAppType_rule_order :
  detectAppType "https://onedrive.live.com/edit?file=report.docx" = "word"
  /\ detectAppType "https://onedrive.live.com/?id=root" = "onedrive"
  /\ detectAppType "https://TEAMS.microsoft.com/" = "teams"
  /\ detectAppType "https://microsoft365.com/?auth=1" = "home".
Proof. repeat split; reflexivity. Qed.

(** ** Helper lemmas *)

Lemma is_true_spec (v : value) : is_true v = true <-> v = VBool true.
Proof.
  split; [|intros ->; reflexivity].
  destruct v as [| |[]| | | |]; simpl; congruence.
Qed.

Lemma is_str_spec (s : string) (v : value) : is_str s v = true <-> v = VStr s.
Proof.
  destruct v; simpl; try (split; congruence).
  rewrite String.eqb_eq. split; congruence.
Qed.

Lemma getAccountType_cases (store : settings) :
  getAccountType store = VStr "work" \/ getAccountType store = VStr "personal".
Proof. unfold getAccountType. destruct (is_str _ _); auto. Qed.

(** The staleness test on whole milliseconds. *)
Lemma stale_test (a b c : Z) :
  gt (sub (Fin (inject_Z a)) (Fin (inject_Z b))) (Fin (inject_Z c)) = (c <? a - b).
Proof.
  unfold gt, sub, Qle_bool, Qminus, Qplus, Qopp, inject_Z. cbn [Qnum Qden].
  rewrite Z.leb_antisym, negb_involutive.
  change (Z.pos (1 * 1)) with 1.
  destruct (Z.ltb_spec (c * 1) ((a * 1 + - b * 1) * 1));
    destruct (Z.ltb_spec c (a - b)); try reflexivity; lia.
Qed.

(** What the loop over the windows leaves behind. *)
Lemma forEach_setTimeout_spec elems : forall index w,
  let w' := forEach_setTimeout elems index w in
  store w' = store w /\ sessionFile w' = sessionFile w /\ now w' = now w
  /\ registry w' = registry w /\ allWindows w' = allWindows w
  /\ timers w' = timers w ++ schedule elems index
  /\ effects w' = effects w ++ List.map (fun t => SetTimeout (fst t)) (schedule elems index).
Proof.
  induction elems as [|e elems IH]; intros index w; simpl.
  - repeat split; now rewrite ?app_nil_r.
  - destruct (IH (index + 1) (setTimeout e (index * 100) w)) as (H1 & H2 & H3 & H4 & H5 & H6 & H7).
    simpl in *. rewrite H1, H2, H3, H4, H5, H6, H7.
    repeat split; now rewrite <- app_assoc.
Qed.

(** restoreSession once the setting is on and the file holds a document
    with a windows array and a timestamp that converts to a number. *)
Lemma restoreSession_parsed w sessionData elems timestamp :
  getValue (store w) "restoreSession" = VBool true ->
  sessionFile w = Some (Json sessionData) ->
  get sessionData "windows" = Normal (VArr elems) ->
  bind (get sessionData "timestamp") ToNumber = Normal timestamp ->
  restoreSession w =
    if gt (sub (Fin (inject_Z (now w))) timestamp) (Fin (inject_Z maxAge))
    then (clearSession (emit (Console SessionTooOld) w), false)
    else if (length elems =? 0)%nat then (w, false)
    else (forEach_setTimeout elems 0
            (emit (Console (RestoringSession (length elems))) w), true).
Proof.
  intros Hon Hfile Hwin Hts. unfold restoreSession.
  rewrite Hon, Hfile. simpl. rewrite Hwin. simpl. rewrite Hts. reflexivity.
Qed.

(** restoreSession with the setting off. *)
Lemma restoreSession_off w :
  getValue (store w) "restoreSession" <> VBool true -> restoreSession w = (w, false).
Proof.
  intros H. unfold restoreSession.
  destruct (is_true _) eqn:E; [apply is_true_spec in E; contradiction|reflexivity].
Qed.



Lemma getAccountType_string store : exists t, getAccountType store = VStr t.
Proof. destruct (getAccountType_cases store) as [-> | ->]; eauto. Qed.


(** What a call of [createWindow] that returns has done. *)
Lemma createWindow_returns store defaultBounds options window reg reg' c :
  createWindow store defaultBounds options window reg = (reg', Normal c) ->
  reg' = {| managedWindows := <[win_id window := created_meta c]> (managedWindows reg);
            windowIdCounter := windowIdCounter reg + 1 |}
  /\ created_partition c = getPartition store (accountType (created_meta c))
  /\ meta_id (created_meta c) = windowIdCounter reg + 1
  /\ appType (created_meta c) = or_default (opt_appType options) (VStr "home")
  /\ accountType (created_meta c) = or_default (opt_accountType options) (getAccountType store)
  /\ bounds (created_meta c) = or_else (or_default (opt_bounds options) VNull) defaultBounds
  /\ isMaximized (created_meta c) = or_default (opt_isMaximized options) (VBool false)
  /\ isFullScreen (created_meta c) = false.
Proof.
  unfold createWindow. intros H.
  destruct (if truthy _ then _ else _) as [u|e]; inversion H; subst; clear H.
  simpl. repeat split; reflexivity.
Qed.

(** ** The partition resolver *)

(** C1. getPartition is total with two results; it answers persist:work
    exactly when the account type it is given, if that is truthy, is
    "work", and otherwise exactly when the stored account setting is
    "?auth=2"; every other input resolves to persist:personal.  The
    partition createWindow uses is the one resolved for the account type
    it records, so windows of the two account types never share one. *)
Theorem getPartition_resolves :
  forall (store : settings) (accountType : value),
    (getPartition store accountType = "persist:work"
     \/ getPartition store accountType = "persist:personal")
    /\ (truthy accountType = true ->
        (getPartition store accountType = "persist:work" <-> accountType = VStr "work"))
    /\ (truthy accountType = false ->
        (getPartition store accountType = "persist:work"
         <-> getValue store "enterprise-or-normal" = VStr "?auth=2"))
    /\ getPartition store (VStr "work") = "persist:work"
    /\ getPartition store (VStr "personal") = "persist:personal"
    /\ (forall store' defaultBounds options window reg reg' c
               defaultBounds' options' window' reg0 reg0' c',
          createWindow store defaultBounds options window reg = (reg', Normal c) ->
          createWindow store' defaultBounds' options' window' reg0 = (reg0', Normal c') ->
          WindowManager.accountType (created_meta c) = VStr "work" ->
          WindowManager.accountType (created_meta c') = VStr "personal" ->
          created_partition c = "persist:work"
          /\ created_partition c' = "persist:personal"
          /\ created_partition c <> created_partition c').
Proof.
  intros store accountType.
  split; [|split; [|split; [|split; [|split]]]].
  - unfold getPartition. destruct (is_str _ _); auto.
  - intros Ht. unfold getPartition, or_else. rewrite Ht, <- is_str_spec.
    destruct (is_str "work" accountType); split; congruence.
  - intros Hf. unfold getPartition, or_else, getAccountType.
    rewrite Hf, <- is_str_spec.
    destruct (is_str "?auth=2" _); simpl; split; congruence.
  - reflexivity.
  - reflexivity.
  - intros store' db options window reg reg' c db' options' window' reg0 reg0' c' H H' Hw Hp.
    apply createWindow_returns in H as (_ & -> & _).
    apply createWindow_returns in H' as (_ & -> & _).
    rewrite Hw, Hp. repeat split; discriminate.
Qed.

(** The resolver at the inputs the store can hold: an explicit type
    wins over the setting, a missing one follows it. *)
Lemma getPartition_resolves_witness :
  getPartition {["enterprise-or-normal" := VStr "?auth=2"]} VUndefined = "persist:work"
  /\ getPartition {["enterprise-or-normal" := VStr "?auth=2"]} (VStr "personal")
     = "persist:personal"
  /\ getPartition (∅ : settings) (VStr "school") = "persist:personal"
  /\ (getPartition (∅ : settings) (VStr "work") = "persist:work" <-> VStr "work" = VStr "work").
Proof.
  split; [reflexivity|]. split; [reflexivity|]. split; [reflexivity|].
  exact (proj1 (proj2 (getPartition_resolves ∅ (VStr "work"))) eq_refl).
Defined.

(** ** The app-type classifier *)

(** C7, as the code has it.  detectAppType is a function of the address
    alone: it lower-cases it and answers with the first rule of the
    ordered table word/.docx, excel/.xlsx, powerpoint/.pptx, outlook,
    onedrive, onenote, teams that matches, and with home when none does.
    The document title is no input of it, so both examples of the
    specification hold whatever the title. *)
Theorem detectAppType_first_rule :
  (forall url : string,
      detectAppType url
      = Classifier.first_match (includes (toLowerCase url)) Classifier.rules)
  /\ detectAppType "https://x/outlook" = "outlook"
  /\ detectAppType "https://unknown.example" = "home".
Proof.
  split; [|split; reflexivity].
  intros url. unfold detectAppType, Classifier.rules. simpl.
  repeat rewrite orb_false_r.
  repeat match goal with |- context [if ?b then _ else _] => destruct b; simpl end;
    reflexivity.
Qed.

(** C7 as stated fails: a title with a file-extension hint changes the
    answer of a classifier that takes the title as a second signal, not
    that of detectAppType; and the classifier of main.js that does read
    the title has other rules and answers office, not outlook or home, on
    the two examples. *)
Lemma detectAppType_ignores_title :
  Classifier.classify_with_title "https://x/view" "deck.pptx" = "powerpoint"
  /\ detectAppType "https://x/view" = "home"
  /\ Main.dynamic_icon_app "https://x/outlook" "" = "office"
  /\ Main.dynamic_icon_app "https://unknown.example" "Untitled" = "office".
Proof. repeat split; reflexivity. Qed.

(** ** Saving with restore-on-start off *)

(** C9. Unless the stored restoreSession setting is the boolean true,
    saveSession returns the world as it found it: no call of
    getSessionState, no write, the session file as it was.  The same
    holds for the two before-quit handlers and the periodic save. *)
Theorem saveSession_disabled :
  forall (w : World) (isQuitting : bool),
    getValue (store w) "restoreSession" <> VBool true ->
    saveSession w = w
    /\ SessionManager.before_quit w = w
    /\ autosave w = w
    /\ Main.before_quit (isQuitting, w) = (true, w)
    /\ sessionFile (saveSession w) = sessionFile w
    /\ effects (saveSession w) = effects w.
Proof.
  intros w q H.
  assert (E : is_true (getValue (store w) "restoreSession") = false).
  { destruct (is_true _) eqn:E; [|reflexivity]. apply is_true_spec in E. contradiction. }
  assert (S : saveSession w = w) by (unfold saveSession; now rewrite E).
  repeat split.
  - exact S.
  - exact S.
  - unfold autosave. now rewrite E.
  - unfold Main.before_quit. simpl. now rewrite S.
  - now rewrite S.
  - now rewrite S.
Qed.

(** With the setting stored as the string "true", nothing is saved. *)
Lemma saveSession_disabled_witness :
  let w := Sample.world {[ "restoreSession" := VStr "true" ]}
             (Some (Json Sample.old_snapshot)) 1700000300000 in
  saveSession w = w
  /\ SessionManager.before_quit w = w
  /\ autosave w = w
  /\ Main.before_quit (false, w) = (true, w)
  /\ sessionFile (saveSession w) = Some (Json Sample.old_snapshot)
  /\ effects (saveSession w) = [].
Proof.
  apply (saveSession_disabled
           (Sample.world {[ "restoreSession" := VStr "true" ]}
              (Some (Json Sample.old_snapshot)) 1700000300000) false).
  vm_compute. discriminate.
Defined.

(** ** Cached bounds and transient geometry *)

Lemma handle_without_touching_bounds window e reg id m :
  touches_bounds id (window, e) = false ->
  managedWindows reg !! id = Some m ->
  exists m', managedWindows (handle window e reg) !! id = Some m'
             /\ bounds m' = bounds m.
Proof.
  unfold touches_bounds. simpl. intros Hq Hm.
  destruct (Z.eqb_spec (win_id window) id) as [Heq|Hne].
  - subst id. simpl in Hq.
    destruct e; simpl in *; try discriminate; unfold with_meta; simpl;
      try (rewrite lookup_alter_eq, Hm; simpl; eexists; split; reflexivity).
    + apply negb_false_iff in Hq. unfold transient in Hq.
      destruct (win_isMaximized window), (win_isFullScreen window);
        try discriminate; simpl; eauto.
    + apply negb_false_iff in Hq. unfold transient in Hq.
      destruct (win_isMaximized window), (win_isFullScreen window);
        try discriminate; simpl; eauto.
  - exists m. split; [|reflexivity].
    destruct e; simpl; unfold with_meta; simpl;
      try (rewrite lookup_alter_ne by exact Hne; exact Hm);
      try (rewrite lookup_delete_ne by exact Hne; exact Hm);
      destruct (negb _ && negb _); simpl;
      try (rewrite lookup_alter_ne by exact Hne); exact Hm.
Qed.

(** C3. Over any run of events in which every resize and move of the
    window arrives while it is maximized or full screen (and it is not
    closed), the registry keeps the window's record with the bounds it had
    before the run; a maximize followed by an unmaximize is such a run, so
    the bounds after it are those recorded before the maximize and never
    the maximized rectangle. *)
Theorem bounds_survive_transient_geometry :
  forall (trace : list (BrowserWindow * event)) (reg : Registry) (id : Z) (m : WindowMeta),
    Forall (fun delivery => touches_bounds id delivery = false) trace ->
    managedWindows reg !! id = Some m ->
    exists m', managedWindows (run trace reg) !! id = Some m'
               /\ bounds m' = bounds m.
Proof.
  induction trace as [|[window e] trace IH]; intros reg id m Hall Hm.
  - exists m. split; [exact Hm|reflexivity].
  - inversion Hall as [|? ? Hhead Htail]; subst.
    destruct (handle_without_touching_bounds window e reg id m Hhead Hm)
      as (m1 & Hm1 & Hb1).
    destruct (IH (handle window e reg) id m1 Htail Hm1) as (m2 & Hm2 & Hb2).
    exists m2. split; [exact Hm2|congruence].
Qed.

(** Window 7 is maximized, resized to the screen by that, and restored:
    its record still holds the 800x600 rectangle at (100,100). *)
Lemma bounds_survive_transient_geometry_witness :
  exists m', managedWindows (run Sample.maximize_then_unmaximize Sample.one_window) !! 7
             = Some m'
             /\ bounds m' = rectangle Sample.restored_rect.
Proof.
  apply (bounds_survive_transient_geometry
           Sample.maximize_then_unmaximize Sample.one_window 7 Sample.word_meta).
  - repeat constructor.
  - reflexivity.
Defined.

(** A resize in the restored state is what replaces the cached bounds. *)
Lemma resize_in_restored_state_updates_bounds window reg m :
  transient window = false ->
  managedWindows reg !! win_id window = Some m ->
  managedWindows (handle window Resize reg) !! win_id window
  = Some (set_bounds (rectangle (getBounds window)) m).
Proof.
  unfold transient. intros Ht Hm. simpl.
  destruct (win_isMaximized window), (win_isFullScreen window); try discriminate.
  simpl. rewrite lookup_alter_eq, Hm. reflexivity.
Qed.

(** ** The snapshot of the live windows *)

(** What a record of getSessionState takes from the native window, and
    the one case in which it keeps the cached bounds. *)
Lemma session_record_reads_window window meta :
  isMaximized (session_record window meta) = VBool (win_isMaximized window)
  /\ isFullScreen (session_record window meta) = win_isFullScreen window
  /\ url (session_record window meta) = VStr (getURL window)
  /\ bounds (session_record window meta)
     = if win_isMaximized window then bounds meta else rectangle (getBounds window).
Proof. repeat split; reflexivity. Qed.

(** C4, where the code departs from it.  A record takes isMaximized,
    isFullScreen and url from the native window, and the cached bounds
    when the window is maximized; but for a window that is full screen
    and not maximized it takes the live rectangle: window 7, full screen
    over 1920x1080 with 800x600 at (100,100) cached, is written with the
    full-screen rectangle as its bounds. *)
Theorem getSessionState_full_screen_bounds :
  (forall window meta,
      win_isMaximized window = false ->
      win_isFullScreen window = true ->
      bounds (session_record window meta) = rectangle (getBounds window))
  /\ exists r,
      getSessionState [Sample.win_fullscreen] Sample.one_window = [r]
      /\ isFullScreen r = true
      /\ isMaximized r = VBool false
      /\ bounds r = rectangle Sample.screen_rect
      /\ bounds Sample.word_meta = rectangle Sample.restored_rect
      /\ bounds r <> bounds Sample.word_meta.
Proof.
  split.
  - intros window meta Hmax _. unfold session_record. simpl. now rewrite Hmax.
  - eexists. split; [reflexivity|]. simpl. repeat split. discriminate.
Qed.

(** ** Stale snapshots *)

(** C5, as the code has it.  For a snapshot on disk whose timestamp lies
    more than 24 hours before now: with restore-on-start on, restoreSession
    sets no timer (so no window is recreated), returns false and deletes
    the file; with the setting off it returns false and leaves the file
    where it is. *)
Theorem stale_snapshot_discarded :
  forall (w : World) (sessionData : value) (elems : list value) (timestamp : Z),
    sessionFile w = Some (Json sessionData) ->
    get sessionData "windows" = Normal (VArr elems) ->
    get sessionData "timestamp" = Normal (VInt timestamp) ->
    now w - timestamp > maxAge ->
    (getValue (store w) "restoreSession" = VBool true ->
     exists w', restoreSession w = (w', false)
                /\ sessionFile w' = None
                /\ timers w' = timers w
                /\ registry w' = registry w
                /\ effects w' = effects w ++ [Console SessionTooOld; Unlink])
    /\ (getValue (store w) "restoreSession" <> VBool true ->
        restoreSession w = (w, false)).
Proof.
  intros w d elems ts Hfile Hwin Hts Hold. split.
  - intros Hon.
    rewrite (restoreSession_parsed w d elems (Fin (inject_Z ts)) Hon Hfile Hwin)
      by (rewrite Hts; reflexivity).
    rewrite stale_test.
    destruct (Z.ltb_spec maxAge (now w - ts)); [|lia].
    eexists. split; [reflexivity|].
    unfold clearSession, existsSync. simpl. rewrite Hfile. simpl.
    repeat split. now rewrite <- app_assoc.
  - apply restoreSession_off.
Qed.

(** A snapshot two days old, with the setting on: it is deleted and
    nothing is scheduled. *)
Lemma stale_snapshot_discarded_witness :
  let w := Sample.world {[ "restoreSession" := VBool true ]}
             (Some (Json Sample.old_snapshot)) 1700172800000 in
  exists w', restoreSession w = (w', false)
             /\ sessionFile w' = None
             /\ timers w' = []
             /\ registry w' = Sample.one_window
             /\ effects w' = [Console SessionTooOld; Unlink].
Proof.
  refine (proj1 (stale_snapshot_discarded
                   (Sample.world {[ "restoreSession" := VBool true ]}
                      (Some (Json Sample.old_snapshot)) 1700172800000)
                   Sample.old_snapshot [json (object_of Sample.word_meta)]
                   1700000000000 eq_refl eq_refl eq_refl _) eq_refl).
  vm_compute. reflexivity.
Defined.

(** C5 as stated fails: with restore-on-start off, as it is by default,
    the same file two days old is still there after restoreSession. *)
Lemma stale_snapshot_kept_when_disabled :
  let w := Sample.world {[ "restoreSession" := VBool false ]}
             (Some (Json Sample.old_snapshot)) 1700172800000 in
  (maxAge <? now w - 1700000000000) = true
  /\ restoreSession w = (w, false)
  /\ sessionFile (fst (restoreSession w)) = Some (Json Sample.old_snapshot).
Proof. repeat split; reflexivity. Qed.

(** ** Timestamps that are no numbers *)

(** What the subtraction makes of a timestamp: a missing one and text
    that is no numeric literal give NaN; null, booleans, the empty string
    and numeric text give numbers. *)
Lemma timestamp_coercions :
  ToNumber VUndefined = Normal NaN
  /\ ToNumber (VStr "yesterday") = Normal NaN
  /\ ToNumber (VObj [("seconds", VInt 5)]) = Normal NaN
  /\ ToNumber VNull = Normal (Fin 0)
  /\ ToNumber (VBool true) = Normal (Fin 1)
  /\ ToNumber (VStr "") = Normal (Fin 0)
  /\ ToNumber (VStr "1700000000000") = Normal (Fin (inject_Z 1700000000000)).
Proof. repeat split; reflexivity. Qed.

(** C10, as the code has it.  With restore-on-start on and a session
    file that parses with a non-empty windows array, a timestamp that is
    missing, or that the subtraction converts to NaN, makes the staleness
    test false: the file is kept and every window of the snapshot is
    scheduled, as for a fresh snapshot. *)
Theorem nan_timestamp_is_restored :
  forall (w : World) (sessionData : value) (elems : list value) (timestamp : value),
    getValue (store w) "restoreSession" = VBool true ->
    sessionFile w = Some (Json sessionData) ->
    get sessionData "windows" = Normal (VArr elems) ->
    elems <> [] ->
    get sessionData "timestamp" = Normal timestamp ->
    ToNumber timestamp = Normal NaN ->
    exists w', restoreSession w = (w', true)
               /\ sessionFile w' = sessionFile w
               /\ registry w' = registry w
               /\ timers w' = timers w ++ schedule elems 0
               /\ effects w' = effects w
                                ++ Console (RestoringSession (length elems))
                                   :: List.map (fun t => SetTimeout (fst t)) (schedule elems 0).
Proof.
  intros w d elems ts Hon Hfile Hwin Hne Hts Hnan.
  rewrite (restoreSession_parsed w d elems NaN Hon Hfile Hwin)
    by (rewrite Hts; exact Hnan).
  simpl. destruct elems as [|e elems]; [contradiction|].
  change (length (e :: elems) =? 0)%nat with false. cbv iota.
  eexists. split; [reflexivity|].
  destruct (forEach_setTimeout_spec (e :: elems) 0
              (emit (Console (RestoringSession (length (e :: elems)))) w))
    as (_ & H2 & _ & H4 & _ & H6 & H7).
  rewrite H2, H4, H6, H7. simpl. repeat split. now rewrite <- app_assoc.
Qed.

(** The snapshot of the samples without its timestamp, read two days
    later: restored. *)
Lemma nan_timestamp_is_restored_witness :
  let w := Sample.world {[ "restoreSession" := VBool true ]}
             (Some (Json Sample.snapshot_without_timestamp)) 1700172800000 in
  exists w', restoreSession w = (w', true)
             /\ sessionFile w' = Some (Json Sample.snapshot_without_timestamp)
             /\ registry w' = Sample.one_window
             /\ timers w' = [(0, json (object_of Sample.word_meta))]
             /\ effects w' = [Console (RestoringSession 1); SetTimeout 0].
Proof.
  refine (nan_timestamp_is_restored
            (Sample.world {[ "restoreSession" := VBool true ]}
               (Some (Json Sample.snapshot_without_timestamp)) 1700172800000)
            Sample.snapshot_without_timestamp [json (object_of Sample.word_meta)]
            VUndefined eq_refl eq_refl eq_refl _ eq_refl eq_refl).
  discriminate.
Defined.

(** C10 as stated fails: a timestamp of null is no number, yet the
    subtraction reads it as 0, the snapshot counts as stale and is
    deleted instead of restored. *)
Lemma null_timestamp_is_stale :
  let w := Sample.world {[ "restoreSession" := VBool true ]}
             (Some (Json Sample.snapshot_with_null_timestamp)) 1700172800000 in
  get Sample.snapshot_with_null_timestamp "timestamp" = Normal VNull
  /\ snd (restoreSession w) = false
  /\ sessionFile (fst (restoreSession w)) = None
  /\ timers (fst (restoreSession w)) = [].
Proof. repeat split; reflexivity. Qed.

(** ** Start-up without a snapshot *)






(** ** Saving and restoring a session *)









(** The JSON form of the object saveSession builds. *)
Lemma json_sessionData timestamp state :
  json (VObj [ ("version", VInt 1); ("timestamp", VInt timestamp);
               ("windows", VArr (List.map object_of state)) ])
  = VObj [ ("version", VInt 1); ("timestamp", VInt timestamp);
           ("windows", VArr (List.map (fun r => json (object_of r)) state)) ].
Proof.
  unfold VInt. cbn [json]. rewrite List.map_map. do 5 f_equal.
Qed.

(** What saveSession writes when the setting is on. *)
Lemma saveSession_file w :
  getValue (store w) "restoreSession" = VBool true ->
  sessionFile (saveSession w)
  = Some (Json (VObj [ ("version", VInt 1); ("timestamp", VInt (now w));
                       ("windows",
                        VArr (List.map (fun r => json (object_of r))
                                (getSessionState (allWindows w) (registry w)))) ])).
Proof.
  intros Hon. unfold saveSession. rewrite Hon.
  cbn [is_true negb emit writeFileSync sessionFile now allWindows registry].
  unfold JSON_stringify. now rewrite json_sessionData.
Qed.



(** The typedef is kept by every event handler, and by createWindow
    when its caller passes strings and an object. *)
Lemma handle_preserves_typed window e reg :
  (forall id m, managedWindows reg !! id = Some m -> typed m) ->
  forall id m, managedWindows (handle window e reg) !! id = Some m -> typed m.
Proof.
  intros Ht id m.
  assert (Halter : forall f,
             (forall m0, typed m0 -> typed (f m0)) ->
             managedWindows (with_meta window f reg) !! id = Some m -> typed m).
  { intros f Hf. unfold with_meta. simpl. rewrite lookup_alter_Some.
    intros [(_ & m0 & Hm0 & ->)|(_ & Hm)]; eauto. }
  destruct e; simpl.
  1-4: apply Halter; intros m0 Hm0; exact Hm0.
  1-2: destruct (negb _ && negb _); [|apply Ht];
       apply Halter; intros m0 (Ha & Hc & _); repeat split; simpl; eauto.
  1-2: apply Halter; intros m0 (_ & Hc & Hb); repeat split; simpl; eauto.
  rewrite lookup_delete_Some. intros [_ Hm]. eauto.
Qed.

Lemma createWindow_typed store size options window reg reg' c :
  typed_options options ->
  createWindow store (VObj size) options window reg = (reg', Normal c) ->
  typed (created_meta c).
Proof.
  intros (Ha & Hc & Hb) H.
  apply createWindow_returns in H as (_ & _ & _ & Hca & Hcc & Hcb & _).
  unfold typed. rewrite Hca, Hcc, Hcb. repeat split.
  - destruct Ha as [-> | (s & ->)]; simpl; eauto.
  - destruct Hc as [-> | (s & ->)]; simpl; eauto using getAccountType_string.
  - destruct Hb as [-> | [-> | (ps & ->)]]; simpl; eauto.
Qed.

(** Every record of a reachable registry follows the typedef. *)
Lemma reachable_typed reg :
  reachable reg -> forall id m, managedWindows reg !! id = Some m -> typed m.
Proof.
  induction 1 as [|store size options window reg Hreach IH Hopt|window e reg Hreach IH];
    intros id m Hm.
  - simpl in Hm. rewrite lookup_empty in Hm. discriminate.
  - destruct (createWindow store (VObj size) options window reg) as [reg' [c|err]] eqn:E.
    + pose proof (createWindow_typed _ _ _ _ _ _ _ Hopt E) as Hc.
      apply createWindow_returns in E as (-> & _). simpl in Hm.
      apply lookup_insert_Some in Hm as [(_ & <-)|(_ & Hm)]; eauto.
    + unfold createWindow in E.
      destruct (if truthy _ then _ else _); inversion E; subst. simpl in Hm. eauto.
  - eapply handle_preserves_typed; eauto.
Qed.

(** * Further properties of the code *)

(** ** The settings store *)

Lemma getValue_setValue_eq key v (store : settings) :
  getValue (setValue key v store) key = v.
Proof. unfold getValue, setValue. now rewrite lookup_insert_eq. Qed.

Lemma getValue_setValue_ne key k v (store : settings) :
  k <> key -> getValue (setValue key v store) k = getValue store k.
Proof. intros H. unfold getValue, setValue. rewrite lookup_insert_ne; congruence. Qed.

(** X1. For a setting name of the program and a default that JSON keeps
    as it is and that is not undefined, getValueOrDefault returns a value
    that the store holds under the name afterwards: the stored one, with
    the store untouched, when there is one, and the default, now stored,
    when there is none.  No other setting of the program changes. *)
Theorem getValueOrDefault_keeps_stored :
  forall (key : string) (d : value) (store : settings),
    In key Settings.names ->
    json d = d ->
    d <> VUndefined ->
    exists store' r,
      Settings.getValueOrDefault key d store = (store', Normal r)
      /\ getValue store' key = r
      /\ r <> VUndefined
      /\ (getValue store key <> VUndefined -> store' = store /\ r = getValue store key)
      /\ (getValue store key = VUndefined -> r = d)
      /\ (forall k, In k Settings.names -> k <> key ->
                    getValue store' k = getValue store k).
Proof.
  intros key d store _ _ Hd. unfold Settings.getValueOrDefault.
  destruct (getValue store key) eqn:E;
    try (eexists _, _; split; [reflexivity|];
         repeat split; try congruence; discriminate).
  unfold Settings.set.
  destruct d; try contradiction;
    (eexists _, _; split; [reflexivity|]; split; [apply getValue_setValue_eq|];
     split; [discriminate|]; split; [congruence|]; split; [reflexivity|];
     intros k _ Hk; now apply getValue_setValue_ne).
Qed.

(** The theme is asked for with its default in a store that holds
    "dark": "dark" is returned and still stored. *)
Lemma getValueOrDefault_keeps_stored_witness :
  exists store' r,
    Settings.getValueOrDefault "theme" (VStr "system") {[ "theme" := VStr "dark" ]}
    = (store', Normal r)
    /\ getValue store' "theme" = r
    /\ r = VStr "dark".
Proof.
  destruct (getValueOrDefault_keeps_stored "theme" (VStr "system")
              {[ "theme" := VStr "dark" ]}) as (s' & r & H & Hg & _ & Hk & _).
  - unfold Settings.names. do 13 right. left. reflexivity.
  - reflexivity.
  - discriminate.
  - exists s', r. split; [exact H|]. split; [exact Hg|].
    apply Hk. vm_compute. discriminate.
Defined.

Lemma getValueOrDefault_step key d (store : settings) :
  d <> VUndefined ->
  let store' := fst (Settings.getValueOrDefault key d store) in
  getValue store' key <> VUndefined
  /\ (forall k, getValue store k <> VUndefined -> getValue store' k = getValue store k)
  /\ (getValue store key <> VUndefined -> store' = store).
Proof.
  intros Hd. unfold Settings.getValueOrDefault.
  destruct (getValue store key) eqn:E; simpl;
    try (rewrite E; repeat split; congruence).
  unfold Settings.set. destruct d; try contradiction; simpl;
    (split; [rewrite getValue_setValue_eq; discriminate|]; split; [|congruence];
     intros k Hk; apply getValue_setValue_ne; congruence).
Qed.

Lemma defaults_defined userAgent :
  Forall (fun kv => snd kv <> VUndefined) (Settings.defaults userAgent).
Proof. repeat constructor; discriminate. Qed.

Lemma fold_defaults (l : list (string * value)) :
  Forall (fun kv => snd kv <> VUndefined) l ->
  forall store : settings,
    let store' :=
      fold_left (fun s kv => fst (Settings.getValueOrDefault (fst kv) (snd kv) s)) l store in
    (forall k, getValue store k <> VUndefined -> getValue store' k = getValue store k)
    /\ Forall (fun kv => getValue store' (fst kv) <> VUndefined) l.
Proof.
  induction 1 as [|[k d] l Hd _ IH]; intros store; simpl.
  - split; [reflexivity|constructor].
  - destruct (getValueOrDefault_step k d store Hd) as (Hk & Hkeep & _).
    destruct (IH (fst (Settings.getValueOrDefault k d store))) as (Hkeep' & Hall).
    split.
    + intros k' Hk'. rewrite Hkeep' by (rewrite Hkeep; assumption). now apply Hkeep.
    + constructor; [|exact Hall]. simpl. rewrite Hkeep' by exact Hk. exact Hk.
Qed.

Lemma fold_defaults_noop (l : list (string * value)) :
  Forall (fun kv => snd kv <> VUndefined) l ->
  forall store : settings,
    Forall (fun kv => getValue store (fst kv) <> VUndefined) l ->
    fold_left (fun s kv => fst (Settings.getValueOrDefault (fst kv) (snd kv) s)) l store
    = store.
Proof.
  induction 1 as [|[k d] l Hd _ IH]; intros store Hall; simpl; [reflexivity|].
  inversion Hall as [|? ? Hk Hrest]; subst. simpl in Hk.
  destruct (getValueOrDefault_step k d store Hd) as (_ & _ & Hsame).
  rewrite (Hsame Hk). now apply IH.
Qed.

Lemma migrate_spec (store : settings) :
  (forall k, k <> "enterprise-or-normal" ->
             getValue (Settings.migrate store) k = getValue store k)
  /\ (getValue store "enterprise-or-normal" <> VUndefined ->
      getValue (Settings.migrate store) "enterprise-or-normal" <> VUndefined)
  /\ getValue (Settings.migrate store) "enterprise-or-normal"
     <> VStr "https://microsoft365.com/?auth=1"
  /\ getValue (Settings.migrate store) "enterprise-or-normal"
     <> VStr "https://microsoft365.com/?auth=2"
  /\ (getValue store "enterprise-or-normal" = VStr "https://microsoft365.com/?auth=2" ->
      getValue (Settings.migrate store) "enterprise-or-normal" = VStr "?auth=2")
  /\ (getValue store "enterprise-or-normal" = VStr "https://microsoft365.com/?auth=1" ->
      getValue (Settings.migrate store) "enterprise-or-normal" = VStr "?auth=1").
Proof.
  unfold Settings.migrate.
  destruct (is_str "https://microsoft365.com/?auth=1" _) eqn:E1.
  - apply is_str_spec in E1.
    repeat split; intros; rewrite ?getValue_setValue_eq, ?getValue_setValue_ne;
      congruence.
  - destruct (is_str "https://microsoft365.com/?auth=2" _) eqn:E2.
    + apply is_str_spec in E2.
      repeat split; intros; rewrite ?getValue_setValue_eq, ?getValue_setValue_ne;
        congruence.
    + repeat split; intros; try congruence.
      * intros H. apply is_str_spec in H. congruence.
      * intros H. apply is_str_spec in H. congruence.
      * apply is_str_spec in H. congruence.
      * apply is_str_spec in H. congruence.
Qed.

Lemma migrate_noop (store : settings) :
  getValue store "enterprise-or-normal" <> VStr "https://microsoft365.com/?auth=1" ->
  getValue store "enterprise-or-normal" <> VStr "https://microsoft365.com/?auth=2" ->
  Settings.migrate store = store.
Proof.
  intros H1 H2. unfold Settings.migrate.
  destruct (is_str "https://microsoft365.com/?auth=1" _) eqn:E1;
    [apply is_str_spec in E1; contradiction|].
  destruct (is_str "https://microsoft365.com/?auth=2" _) eqn:E2;
    [apply is_str_spec in E2; contradiction|reflexivity].
Qed.

Lemma fold_defaults_first (l rest : list (string * value)) k d (store : settings) :
  l = (k, d) :: rest ->
  Forall (fun kv => snd kv <> VUndefined) l ->
  getValue store k = VUndefined ->
  getValue
    (fold_left (fun s kv => fst (Settings.getValueOrDefault (fst kv) (snd kv) s)) l store) k
  = d.
Proof.
  intros -> Hall Hk. inversion Hall as [|? ? Hd Hrest]; subst. simpl in Hd.
  cbn [fold_left fst snd].
  assert (H1 : getValue (fst (Settings.getValueOrDefault k d store)) k = d).
  { unfold Settings.getValueOrDefault. rewrite Hk. unfold Settings.set.
    destruct d; try contradiction; simpl; apply getValue_setValue_eq. }
  destruct (fold_defaults rest Hrest (fst (Settings.getValueOrDefault k d store)))
    as (Hkeep & _).
  rewrite Hkeep; [exact H1|]. rewrite H1. exact Hd.
Qed.

(** X2. Loading the store module leaves every setting of its default
    list with a value, keeps every value that was stored (the account
    setting apart, which it migrates), never leaves the account setting in
    its old URL form (a stored work URL becomes "?auth=2", so the account
    stays the work account), and doing it again changes nothing. *)
Theorem initialize_settles :
  forall (userAgent : string) (store : settings),
    Settings.initialize userAgent (Settings.initialize userAgent store)
    = Settings.initialize userAgent store
    /\ Forall (fun kv => getValue (Settings.initialize userAgent store) (fst kv) <> VUndefined)
         (Settings.defaults userAgent)
    /\ (forall k, getValue store k <> VUndefined -> k <> "enterprise-or-normal" ->
                  getValue (Settings.initialize userAgent store) k = getValue store k)
    /\ getValue (Settings.initialize userAgent store) "enterprise-or-normal"
       <> VStr "https://microsoft365.com/?auth=1"
    /\ getValue (Settings.initialize userAgent store) "enterprise-or-normal"
       <> VStr "https://microsoft365.com/?auth=2"
    /\ (getValue store "enterprise-or-normal" = VStr "https://microsoft365.com/?auth=2" ->
        getAccountType (Settings.initialize userAgent store) = VStr "work")
    /\ (getValue store "enterprise-or-normal" = VUndefined ->
        getAccountType (Settings.initialize userAgent store) = VStr "personal").
Proof.
  intros ua store. unfold Settings.initialize.
  set (s1 := fold_left _ (Settings.defaults ua) store).
  destruct (fold_defaults _ (defaults_defined ua) store) as (Hkeep & Hall).
  fold s1 in Hkeep, Hall.
  destruct (migrate_spec s1) as (Mother & Mdef & M1 & M2 & Mwork & Mpers).
  assert (Hall2 : Forall (fun kv => getValue (Settings.migrate s1) (fst kv) <> VUndefined)
                    (Settings.defaults ua)).
  { eapply Forall_impl; [exact Hall|]. intros [k d] Hk. cbn [fst] in Hk |- *.
    destruct (String.eqb_spec k "enterprise-or-normal") as [->|Hne].
    - now apply Mdef.
    - now rewrite Mother. }
  split.
  { rewrite (fold_defaults_noop _ (defaults_defined ua) _ Hall2).
    now apply migrate_noop. }
  split; [exact Hall2|].
  split; [intros k Hk Hne; rewrite Mother by exact Hne; now apply Hkeep|].
  split; [exact M1|]. split; [exact M2|].
  split.
  - intros Hold. unfold getAccountType. rewrite Mwork; [reflexivity|].
    rewrite Hkeep; [exact Hold|]. rewrite Hold. discriminate.
  - intros Hnone. unfold getAccountType.
    assert (Hs1 : getValue s1 "enterprise-or-normal" = VStr "?auth=1").
    { exact (fold_defaults_first _ _ _ _ store eq_refl (defaults_defined ua) Hnone). }
    rewrite migrate_noop; rewrite Hs1; try discriminate. reflexivity.
Qed.

(** ** The registry of managed windows *)

Import WindowQueries.

(** What one event does to the record under an id: it drops it, or keeps
    it with its number and account type; it never adds one, and the counter
    stays. *)
Lemma handle_record window e reg id m' :
  managedWindows (handle window e reg) !! id = Some m' ->
  exists m, managedWindows reg !! id = Some m
            /\ meta_id m' = meta_id m /\ accountType m' = accountType m.
Proof.
  assert (Halter : forall f,
             (forall m, meta_id (f m) = meta_id m /\ accountType (f m) = accountType m) ->
             managedWindows (with_meta window f reg) !! id = Some m' ->
             exists m, managedWindows reg !! id = Some m
                       /\ meta_id m' = meta_id m /\ accountType m' = accountType m).
  { intros f Hf. unfold with_meta. simpl. intros H.
    destruct (Z.eq_dec (win_id window) id) as [Heq|Hne].
    - subst id. rewrite lookup_alter_eq in H.
      destruct (managedWindows reg !! win_id window) as [m|]; [|discriminate].
      simpl in H. inversion H; subst. exists m. split; [reflexivity|apply Hf].
    - rewrite lookup_alter_ne in H by exact Hne. eauto. }
  destruct e; simpl; try (apply Halter; intros; split; reflexivity).
  - destruct (negb _ && negb _); [apply Halter; intros; split; reflexivity|eauto].
  - destruct (negb _ && negb _); [apply Halter; intros; split; reflexivity|eauto].
  - intros H. apply lookup_delete_Some in H as (_ & H). eauto.
Qed.

Lemma handle_counter window e reg :
  windowIdCounter (handle window e reg) = windowIdCounter reg.
Proof. destruct e; simpl; try reflexivity; destruct (negb _ && negb _); reflexivity. Qed.

Lemma size_alter {A} (f : A -> A) (i : Z) (m : gmap Z A) : size (alter f i m) = size m.
Proof.
  rewrite <- (size_dom (D:=gset Z) (alter f i m)), <- (size_dom (D:=gset Z) m), dom_alter_L.
  reflexivity.
Qed.

Lemma handle_count window e reg :
  (getWindowCount (handle window e reg) <= getWindowCount reg)%nat.
Proof.
  unfold getWindowCount.
  destruct e; simpl; try (rewrite size_alter; apply Nat.le_refl).
  - destruct (negb _ && negb _); simpl; [rewrite size_alter|]; apply Nat.le_refl.
  - destruct (negb _ && negb _); simpl; [rewrite size_alter|]; apply Nat.le_refl.
  - rewrite map_size_delete. destruct (managedWindows reg !! win_id window); simpl.
    + apply Nat.le_pred_l.
    + apply Nat.le_refl.
Qed.

(** X3. Over any run of window events the registry gains no record, a
    record that is still there has the number and the account type it had
    before the run, and the counter does not move. *)
Theorem run_keeps_identity :
  forall (trace : list (BrowserWindow * event)) (reg : Registry),
    windowIdCounter (run trace reg) = windowIdCounter reg
    /\ (getWindowCount (run trace reg) <= getWindowCount reg)%nat
    /\ forall id m',
         managedWindows (run trace reg) !! id = Some m' ->
         exists m, managedWindows reg !! id = Some m
                   /\ meta_id m' = meta_id m /\ accountType m' = accountType m.
Proof.
  induction trace as [|[window e] trace IH]; intros reg.
  - split; [reflexivity|]. split; [apply Nat.le_refl|]. intros id m' H. eauto.
  - change (run ((window, e) :: trace) reg) with (run trace (handle window e reg)).
    destruct (IH (handle window e reg)) as (Hc & Hn & Hrec).
    split; [rewrite Hc; apply handle_counter|].
    split; [etransitivity; [exact Hn|apply handle_count]|].
    intros id m' H. destruct (Hrec id m' H) as (m1 & H1 & Hid1 & Hacc1).
    destruct (handle_record window e reg id m1 H1) as (m & Hm & Hid & Hacc).
    exists m. split; [exact Hm|]. split; congruence.
Qed.

Lemma closed_lookup window reg w :
  managedWindows (handle window Closed reg) !! win_id w
  = if win_id w =? win_id window then None else managedWindows reg !! win_id w.
Proof.
  simpl. destruct (Z.eqb_spec (win_id w) (win_id window)) as [Heq|Hne].
  - rewrite Heq. apply lookup_delete_eq.
  - apply lookup_delete_ne. congruence.
Qed.

Lemma closed_lookup_self window reg :
  managedWindows (handle window Closed reg) !! win_id window = None.
Proof. rewrite closed_lookup, Z.eqb_refl. reflexivity. Qed.

Lemma closed_filter window reg (p : WindowMeta -> bool) allWindows :
  List.filter (fun w => match managedWindows (handle window Closed reg) !! win_id w with
                        | Some meta => p meta | None => false end) allWindows
  = List.filter (fun w => negb (win_id w =? win_id window))
      (List.filter (fun w => match managedWindows reg !! win_id w with
                             | Some meta => p meta | None => false end) allWindows).
Proof.
  induction allWindows as [|w ws IH]; [reflexivity|].
  cbn [List.filter]. rewrite closed_lookup, IH.
  destruct (win_id w =? win_id window) eqn:E.
  - destruct (managedWindows reg !! win_id w) as [meta|]; [|reflexivity].
    destruct (p meta); [|reflexivity]. cbn [List.filter]. now rewrite E.
  - destruct (managedWindows reg !! win_id w) as [meta|]; [|reflexivity].
    destruct (p meta); [|reflexivity]. cbn [List.filter]. now rewrite E.
Qed.

Lemma closed_snapshot window reg allWindows :
  getSessionState allWindows (handle window Closed reg)
  = getSessionState (List.filter (fun w => negb (win_id w =? win_id window)) allWindows) reg.
Proof.
  induction allWindows as [|w ws IH]; [reflexivity|].
  cbn [getSessionState List.filter]. rewrite closed_lookup, IH.
  destruct (win_id w =? win_id window); reflexivity.
Qed.

(** X4. Once the closed event of a window was handled, the window has no
    record, the count of managed windows is one less when it had one, and
    the queries by app and by account and the session snapshot answer as
    they did before for the windows with other ids, and leave this one
    out. *)
Theorem closed_window_is_forgotten :
  forall (window : BrowserWindow) (reg : Registry) (allWindows : list BrowserWindow),
    let reg' := handle window Closed reg in
    let others := List.filter (fun w => negb (win_id w =? win_id window)) in
    getWindowMeta window reg' = None
    /\ (is_Some (getWindowMeta window reg) -> getWindowCount reg = S (getWindowCount reg'))
    /\ (forall w, win_id w <> win_id window -> getWindowMeta w reg' = getWindowMeta w reg)
    /\ (forall app, getWindowsByApp allWindows app reg'
                    = others (getWindowsByApp allWindows app reg))
    /\ (forall account, getWindowsByAccount allWindows account reg'
                        = others (getWindowsByAccount allWindows account reg))
    /\ getSessionState allWindows reg' = getSessionState (others allWindows) reg.
Proof.
  intros window reg allWindows reg' others. subst reg' others.
  unfold getWindowMeta.
  split; [rewrite closed_lookup, Z.eqb_refl; reflexivity|].
  split.
  { unfold getWindowCount. intros Hsome. simpl.
    rewrite map_size_delete_Some by exact Hsome.
    destruct Hsome as (m & Hm).
    assert (size (managedWindows reg) <> 0%nat).
    { intros H0. apply map_size_empty_inv in H0. rewrite H0, lookup_empty in Hm.
      discriminate. }
    lia. }
  split.
  { intros w Hw. rewrite closed_lookup.
    destruct (Z.eqb_spec (win_id w) (win_id window)); [contradiction|reflexivity]. }
  split; [intros app; apply closed_filter|].
  split; [intros account; apply closed_filter|].
  apply closed_snapshot.
Qed.

Lemma createWindow_registry store defaultBounds options window reg :
  let reg' := fst (createWindow store defaultBounds options window reg) in
  windowIdCounter reg' = windowIdCounter reg + 1
  /\ (managedWindows reg' = managedWindows reg
      \/ exists m, meta_id m = windowIdCounter reg + 1
                   /\ managedWindows reg' = <[win_id window := m]> (managedWindows reg)).
Proof.
  unfold createWindow.
  destruct (if truthy _ then _ else _) as [u|e]; simpl; split; try reflexivity.
  - right. eexists. split; [|reflexivity]. reflexivity.
  - left. reflexivity.
Qed.

Lemma createWindow_well_numbered store defaultBounds options window reg :
  well_numbered reg ->
  well_numbered (fst (createWindow store defaultBounds options window reg)).
Proof.
  intros (Hpos & Hrange & Huniq).
  destruct (createWindow_registry store defaultBounds options window reg)
    as (Hc & [Hsame | (m & Hid & Hins)]);
    unfold well_numbered; rewrite Hc; (split; [lia|]).
  - rewrite Hsame. split; [|exact Huniq].
    intros id m Hm. specialize (Hrange id m Hm). lia.
  - rewrite Hins. split.
    + intros id m0 Hm0. apply lookup_insert_Some in Hm0 as [(_ & <-) | (_ & Hm0)].
      * lia.
      * specialize (Hrange id m0 Hm0). lia.
    + intros id1 id2 m1 m2 H1 H2 Heq.
      apply lookup_insert_Some in H1 as [(E1 & <-) | (N1 & H1)];
        apply lookup_insert_Some in H2 as [(E2 & <-) | (N2 & H2)].
      * congruence.
      * specialize (Hrange id2 m2 H2). lia.
      * specialize (Hrange id1 m1 H1). lia.
      * eapply Huniq; eassumption.
Qed.

Lemma handle_well_numbered window e reg :
  well_numbered reg -> well_numbered (handle window e reg).
Proof.
  intros (Hpos & Hrange & Huniq). unfold well_numbered. rewrite handle_counter.
  split; [exact Hpos|]. split.
  - intros id m' H. destruct (handle_record window e reg id m' H) as (m & Hm & Hid & _).
    rewrite Hid. eapply Hrange; eassumption.
  - intros id1 id2 m1 m2 H1 H2 Heq.
    destruct (handle_record window e reg id1 m1 H1) as (n1 & Hn1 & Hid1 & _).
    destruct (handle_record window e reg id2 m2 H2) as (n2 & Hn2 & Hid2 & _).
    eapply Huniq; [exact Hn1|exact Hn2|congruence].
Qed.

(** X5. However the registry evolves by calls of createWindow (with any
    options, returning or throwing) and by window events, the counter
    never decreases, every record carries one of the numbers 1..counter,
    and no two records carry the same number: the number a window gets at
    its creation identifies it for as long as its record lives. *)
Theorem evolves_well_numbered :
  forall reg reg' : Registry,
    well_numbered reg ->
    evolves reg reg' ->
    well_numbered reg' /\ windowIdCounter reg <= windowIdCounter reg'.
Proof.
  intros reg reg' Hwn Hev.
  induction Hev as [|store db options window reg' _ (IHwn & IHc)|window e reg' _ (IHwn & IHc)].
  - split; [exact Hwn|lia].
  - split; [now apply createWindow_well_numbered|].
    destruct (createWindow_registry store db options window reg') as (Hc & _).
    rewrite Hc. lia.
  - split; [now apply handle_well_numbered|]. rewrite handle_counter. exact IHc.
Qed.

(** From the empty registry: two windows are created and the first is
    maximized; the two records carry the numbers 1 and 2. *)
Lemma evolves_well_numbered_witness :
  well_numbered Scenario.two_windows
  /\ windowIdCounter initial <= windowIdCounter Scenario.two_windows.
Proof.
  apply (evolves_well_numbered initial).
  - split; [simpl; lia|]. split.
    + intros id m H. unfold initial in H. simpl in H. rewrite lookup_empty in H.
      discriminate.
    + intros id1 id2 m1 m2 H. unfold initial in H. simpl in H. rewrite lookup_empty in H.
      discriminate.
  - apply evolves_event, evolves_createWindow, evolves_createWindow, evolves_here.
Defined.

(** ** Focusing or creating the window of an app *)

Lemma getWindowsByApp_In allWindows app reg w :
  In w (getWindowsByApp allWindows app reg)
  <-> In w allWindows
      /\ exists m, managedWindows reg !! win_id w = Some m /\ appType m = VStr app.
Proof.
  unfold getWindowsByApp. rewrite filter_In. split.
  - intros (Hin & Hp). split; [exact Hin|].
    destruct (managedWindows reg !! win_id w) as [m|]; [|discriminate].
    exists m. split; [reflexivity|]. now apply is_str_spec.
  - intros (Hin & m & Hm & Happ). split; [exact Hin|].
    rewrite Hm. now apply is_str_spec.
Qed.

(** A window of the app that is among the live windows is focused. *)
Lemma focusOrCreateWindow_present store defaultBounds allWindows isMinimized window app
    accountType reg w m :
  In w allWindows ->
  managedWindows reg !! win_id w = Some m ->
  appType m = VStr app ->
  exists w' restored,
    focusOrCreateWindow store defaultBounds allWindows isMinimized window app accountType reg
    = (reg, Normal (Focused w' restored)).
Proof.
  intros Hin Hm Happ. unfold focusOrCreateWindow.
  destruct (getWindowsByApp allWindows app reg) as [|w' rest] eqn:E.
  - assert (H : In w (getWindowsByApp allWindows app reg))
      by (apply getWindowsByApp_In; eauto).
    rewrite E in H. destruct H.
  - eauto.
Qed.

Lemma focusOrCreateWindow_created store defaultBounds allWindows isMinimized window app
    accountType reg reg' c :
  focusOrCreateWindow store defaultBounds allWindows isMinimized window app accountType reg
  = (reg', Normal (Created c)) ->
  getWindowsByApp allWindows app reg = []
  /\ exists u,
      getAppUrl store (VStr app) accountType = Normal u
      /\ createWindow store defaultBounds
           {| opt_url := u; opt_appType := VStr app; opt_accountType := accountType;
              opt_bounds := VUndefined; opt_isMaximized := VUndefined;
              opt_show := VUndefined |} window reg
         = (reg', Normal c).
Proof.
  unfold focusOrCreateWindow.
  destruct (getWindowsByApp allWindows app reg) as [|w rest]; [|discriminate].
  destruct (getAppUrl store (VStr app) accountType) as [u|e]; [|discriminate].
  destruct (createWindow _ _ _ _ _) as [reg1 [c1|e]] eqn:Hc; simpl; [|discriminate].
  intros H. inversion H; subst. split; [reflexivity|]. exists u. split; [reflexivity|exact Hc].
Qed.

(** X6. focusOrCreateWindow(appType, accountType), when it returns: either
    it focused the first live window whose record has that app type and
    left the registry as it was, or no live window had it and exactly one
    record, with that app type and the next number, was registered for
    the new window; a second call for the app then focuses a window and
    creates none, whatever window it is handed, as long as the new window
    is among the live ones. *)
Theorem focusOrCreateWindow_focuses_or_creates :
  forall store defaultBounds allWindows isMinimized window app accountType reg reg' r,
    focusOrCreateWindow store defaultBounds allWindows isMinimized window app accountType reg
    = (reg', Normal r) ->
    match r with
    | Focused w restored =>
        reg' = reg
        /\ hd_error (getWindowsByApp allWindows app reg) = Some w
        /\ In w allWindows
        /\ (exists m, getWindowMeta w reg = Some m /\ appType m = VStr app)
        /\ restored = isMinimized w
    | Created c =>
        getWindowsByApp allWindows app reg = []
        /\ windowIdCounter reg' = windowIdCounter reg + 1
        /\ managedWindows reg' = <[win_id window := created_meta c]> (managedWindows reg)
        /\ appType (created_meta c) = VStr app
        /\ meta_id (created_meta c) = windowIdCounter reg + 1
        /\ forall allWindows' window',
             In window allWindows' ->
             exists w restored,
               focusOrCreateWindow store defaultBounds allWindows' isMinimized window' app
                 accountType reg'
               = (reg', Normal (Focused w restored))
    end.
Proof.
  intros store db allWindows isMinimized window app acct reg reg' r H.
  destruct r as [w restored|c].
  - unfold focusOrCreateWindow in H.
    destruct (getWindowsByApp allWindows app reg) as [|w0 rest] eqn:E.
    + destruct (getAppUrl store (VStr app) acct) as [u|e]; [|discriminate].
      destruct (createWindow _ _ _ _ _) as [reg1 [c1|e]]; discriminate.
    + inversion H; subst.
      assert (Hin : In w (getWindowsByApp allWindows app reg')) by (rewrite E; now left).
      apply getWindowsByApp_In in Hin as (Hin & Hm).
      repeat split; try assumption; reflexivity.
  - apply focusOrCreateWindow_created in H as (Hnone & u & _ & Hc).
    apply createWindow_returns in Hc as (-> & _ & Hid & Happ & _).
    cbn [opt_appType or_default] in Happ.
    split; [exact Hnone|]. split; [reflexivity|]. split; [reflexivity|].
    split; [exact Happ|]. split; [exact Hid|].
    intros allWindows' window' Hin.
    eapply focusOrCreateWindow_present; [exact Hin| |exact Happ].
    simpl. apply lookup_insert_eq.
Qed.

(** With no window open, asking for Outlook creates window 7 with the
    number 1. *)
Lemma focusOrCreateWindow_focuses_or_creates_witness :
  exists reg' c,
    focusOrCreateWindow Sample.personal_home Sample.default_size [] (fun _ => false)
      Sample.win_restored "outlook" VUndefined initial = (reg', Normal (Created c))
    /\ managedWindows reg' = <[7 := created_meta c]> ∅
    /\ meta_id (created_meta c) = 1.
Proof.
  eexists _, _. split; [reflexivity|].
  match goal with
  | |- managedWindows ?reg' = <[_ := created_meta ?c]> _ /\ _ =>
      destruct (focusOrCreateWindow_focuses_or_creates Sample.personal_home
                  Sample.default_size [] (fun _ => false) Sample.win_restored "outlook"
                  VUndefined initial reg' (Created c) eq_refl)
        as (_ & _ & Hmap & _ & Hid & _)
  end.
  split; [exact Hmap|exact Hid].
Defined.

(** Without an account type the stored one is used. *)
Lemma getAppUrl_default_account store name :
  getAppUrl store name VUndefined = getAppUrl store name (getAccountType store).
Proof.
  unfold getAppUrl, or_else. cbn [truthy].
  destruct (getAccountType_cases store) as [-> | ->]; reflexivity.
Qed.

(** The classifier on the addresses of APP_URLS: it finds every app but
    allapps, whose address it takes for the home page. *)
Lemma getAppUrl_detected store app accountType :
  In app (List.map fst APP_URLS) ->
  accountType = VUndefined \/ accountType = VStr "personal" \/ accountType = VStr "work" ->
  exists u,
    getAppUrl store (VStr app) accountType = Normal (VStr u)
    /\ truthy (VStr u) = true
    /\ detectAppType u = if (app =? "allapps")%string then "home" else app.
Proof.
  intros Hin Hacct.
  assert (H : forall t, t = VStr "personal" \/ t = VStr "work" ->
                        exists u, getAppUrl store (VStr app) t = Normal (VStr u)
                                  /\ truthy (VStr u) = true
                                  /\ detectAppType u
                                     = if (app =? "allapps")%string then "home" else app).
  { intros t Ht. cbn [List.map APP_URLS fst In] in Hin.
    repeat (destruct Hin as [<- | Hin]); try contradiction;
      destruct Ht as [-> | ->]; eexists;
      (split; [vm_compute; reflexivity|split; vm_compute; reflexivity]). }
  destruct Hacct as [-> | Hacct]; [|exact (H _ Hacct)].
  rewrite getAppUrl_default_account. apply H.
  destruct (getAccountType_cases store) as [-> | ->]; auto.
Qed.

(** For a key of APP_URLS the address is the side of its entry that
    the account type names. *)
Lemma getAppUrl_entry store app accountType :
  In app (List.map fst APP_URLS) ->
  accountType = VUndefined \/ accountType = VStr "personal" \/ accountType = VStr "work" ->
  exists e,
    lookup_app app APP_URLS = Some e
    /\ getAppUrl store (VStr app) accountType
       = Normal (VStr (if is_str "work" (or_else accountType (getAccountType store))
                       then work e else personal e)).
Proof.
  intros Hin Hacct.
  assert (Htype : or_else accountType (getAccountType store) = VStr "personal"
                  \/ or_else accountType (getAccountType store) = VStr "work").
  { destruct Hacct as [-> | [-> | ->]]; [|now left|now right].
    destruct (getAccountType_cases store) as [H | H];
      unfold or_else; cbn [truthy]; rewrite H; [now right|now left]. }
  unfold getAppUrl. cbn [List.map APP_URLS fst In] in Hin.
  repeat (destruct Hin as [<- | Hin]); try contradiction;
    destruct Htype as [-> | ->]; eexists; split; reflexivity.
Qed.

Lemma createWindow_with_url store defaultBounds options window reg reg' c :
  truthy (opt_url options) = true ->
  createWindow store defaultBounds options window reg = (reg', Normal c) ->
  created_loadUrl c = Url (opt_url options) /\ url (created_meta c) = opt_url options.
Proof.
  intros Ht. unfold createWindow.
  assert (E : or_default (opt_url options) VNull = opt_url options)
    by (destruct (opt_url options); try reflexivity; discriminate).
  rewrite E, Ht. intros H. inversion H; subst. split; reflexivity.
Qed.

(** X7. A window that focusOrCreateWindow created for an app of APP_URLS
    (for the stored, the personal or the work account) loads that app's
    address, the side of its entry of APP_URLS that the account names.  When the navigation to this address is reported, the record
    is classified again from it: for every app but allapps the window is
    still found under the app, so the next request focuses it; the address
    of allapps is classified as home, so no window is found under allapps
    and the next request creates another window. *)
Theorem app_window_after_navigation :
  forall store defaultBounds allWindows isMinimized window app accountType reg reg' c,
    In app (List.map fst APP_URLS) ->
    accountType = VUndefined \/ accountType = VStr "personal" \/ accountType = VStr "work" ->
    focusOrCreateWindow store defaultBounds allWindows isMinimized window app accountType reg
    = (reg', Normal (Created c)) ->
    exists u,
      created_loadUrl c = Url (VStr u)
      /\ detectAppType u = (if (app =? "allapps")%string then "home" else app)
      /\ (app <> "allapps" ->
          In window (getWindowsByApp (window :: allWindows) app
                       (handle window (DidNavigate u) reg')))
      /\ (app = "allapps" ->
          getWindowsByApp (window :: allWindows) app (handle window (DidNavigate u) reg')
          = [])
      /\ (exists e,
            lookup_app app APP_URLS = Some e
            /\ u = if is_str "work" (or_else accountType (getAccountType store))
                   then work e else personal e).
Proof.
  intros store db allWindows isMinimized window app acct reg reg' c Hin Hacct H.
  apply focusOrCreateWindow_created in H as (Hnone & u0 & Hu & Hc).
  destruct (getAppUrl_detected store app acct Hin Hacct) as (u & Hu' & Ht & Hdet).
  destruct (getAppUrl_entry store app acct Hin Hacct) as (e & Hentry & Hside).
  rewrite Hu' in Hside. inversion Hside as [Hue]. clear Hside.
  rewrite Hu' in Hu. inversion Hu; subst u0. clear Hu.
  pose proof Hc as Hload.
  apply createWindow_with_url in Hload as (Hload & _); [|exact Ht].
  cbn [opt_url] in Hload.
  apply createWindow_returns in Hc as (-> & _).
  exists u. split; [exact Hload|]. split; [exact Hdet|].
  assert (Hrec : forall r,
             managedWindows
               (handle window (DidNavigate u)
                  {| managedWindows := <[win_id window := created_meta c]> (managedWindows reg);
                     windowIdCounter := r |}) !! win_id window
             = Some (set_url u (created_meta c))).
  { intros r. simpl. rewrite lookup_alter_eq, lookup_insert_eq. reflexivity. }
  split; [|split; [|exists e; split; [exact Hentry|exact Hue]]].
  - intros Hne. apply getWindowsByApp_In. split; [left; reflexivity|].
    eexists. split; [apply Hrec|]. simpl. rewrite Hdet.
    destruct (String.eqb_spec app "allapps"); [contradiction|reflexivity].
  - intros ->.
    destruct (getWindowsByApp (window :: allWindows) _ _) as [|w rest] eqn:E;
      [reflexivity|]. exfalso.
    assert (Hw : In w (w :: rest)) by now left.
    rewrite <- E in Hw. apply getWindowsByApp_In in Hw as (Hin' & m & Hm & Happ).
    destruct (Z.eq_dec (win_id w) (win_id window)) as [Heq|Hneq].
    + rewrite Heq, Hrec in Hm. inversion Hm; subst m. simpl in Happ.
      rewrite Hdet in Happ. discriminate.
    + simpl in Hm. rewrite lookup_alter_ne, lookup_insert_ne in Hm by congruence.
      destruct Hin' as [<-|Hin']; [contradiction|].
      assert (Hold : In w (getWindowsByApp allWindows "allapps" reg))
        by (apply getWindowsByApp_In; eauto).
      rewrite Hnone in Hold. destruct Hold.
Qed.

(** Word is asked for with no window open: window 7 loads the personal
    Word address, and is found under word once it reports it. *)
Lemma app_window_after_navigation_witness :
  exists u,
    u = "https://microsoft365.com/launch/word?auth=1"
    /\ detectAppType u = "word"
    /\ In Sample.win_restored
         (getWindowsByApp [Sample.win_restored] "word"
            (handle Sample.win_restored (DidNavigate u)
               (fst (focusOrCreateWindow Sample.personal_home Sample.default_size []
                       (fun _ => false) Sample.win_restored "word" VUndefined initial)))).
Proof.
  destruct (focusOrCreateWindow Sample.personal_home Sample.default_size []
              (fun _ => false) Sample.win_restored "word" VUndefined initial)
    as [reg' [[w r|c]|e]] eqn:E; try (vm_compute in E; discriminate).
  destruct (app_window_after_navigation Sample.personal_home Sample.default_size []
              (fun _ => false) Sample.win_restored "word" VUndefined initial reg' c)
    as (u & Hload & Hdet & Hfound & _).
  - simpl. auto.
  - auto.
  - exact E.
  - assert (Hu : u = "https://microsoft365.com/launch/word?auth=1").
    { vm_compute in E. inversion E; subst c. simpl in Hload. congruence. }
    exists u. split; [exact Hu|]. split; [exact Hdet|]. apply Hfound. discriminate.
Defined.

(** ** The address and the partition of a created window *)

(** X8. When createWindow is given no url it loads the home page
    for "?auth=2" exactly when the account type of the new record is the
    string "work".  For a truthy account type (and so whenever the option
    is left out) the partition follows the same test, so the page and the
    partition belong to the same account; for a falsy one that was passed
    in, the partition follows the stored account setting instead, while
    the page is the personal one. *)
Theorem createWindow_home_page_account :
  forall store defaultBounds options window reg reg' c,
    truthy (or_default (opt_url options) VNull) = false ->
    createWindow store defaultBounds options window reg = (reg', Normal c) ->
    let account := accountType (created_meta c) in
    created_loadUrl c
    = HomePage (or_else (getValue store "custompage") (VStr "home"))
        (VStr (if is_str "work" account then "?auth=2" else "?auth=1"))
    /\ (truthy account = true ->
        created_partition c
        = if is_str "work" account then "persist:work" else "persist:personal")
    /\ (truthy account = false ->
        created_partition c
        = if is_str "?auth=2" (getValue store "enterprise-or-normal")
          then "persist:work" else "persist:personal")
    /\ (opt_accountType options = VUndefined -> truthy account = true).
Proof.
  intros store db options window reg reg' c Hurl H account.
  pose proof (createWindow_returns _ _ _ _ _ _ _ H) as (_ & Hpart & _ & _ & Hacc & _).
  fold account in Hpart, Hacc.
  split.
  { unfold createWindow in H. rewrite Hurl in H.
    destruct (getAppUrl _ _ _) as [u|e]; inversion H; subst. reflexivity. }
  rewrite Hpart. unfold getPartition, or_else.
  split; [intros ->; reflexivity|].
  split.
  - intros ->. unfold getAccountType.
    destruct (is_str "?auth=2" _); reflexivity.
  - intros Hopt. rewrite Hacc, Hopt. simpl.
    destruct (getAccountType_cases store) as [-> | ->]; reflexivity.
Qed.

(** A window created without options under the personal setting loads
    the personal home page in the personal partition. *)
Lemma createWindow_home_page_account_witness :
  exists reg' c,
    createWindow Sample.personal_home Sample.default_size no_options
      Sample.win_restored initial = (reg', Normal c)
    /\ created_loadUrl c = HomePage (VStr "home") (VStr "?auth=1")
    /\ created_partition c = "persist:personal".
Proof.
  eexists _, _. split; [reflexivity|].
  match goal with
  | |- created_loadUrl ?c = _ /\ _ =>
      destruct (createWindow_home_page_account Sample.personal_home Sample.default_size
                  no_options Sample.win_restored initial _ c eq_refl eq_refl)
        as (Hload & Hpart & _ & _)
  end.
  split; [exact Hload|]. apply Hpart. reflexivity.
Defined.

(** ** Launching apps *)

Import Launch.


(** What toLowerCase returns holds no capital, so that the only
    inherited names it can be are constructor and __proto__. *)
Lemma lowered_no_capital (c : ascii) :
  capital (let n := nat_of_ascii c in
           if ((65 <=? n) && (n <=? 90))%nat then ascii_of_nat (n + 32) else c) = false.
Proof. destruct c as [[] [] [] [] [] [] [] []]; vm_compute; reflexivity. Qed.

Lemma toLowerCase_no_capital_upto n :
  forall s, (String.length s <= n)%nat -> has_capital (toLowerCase s) = false.
Proof.
  induction n as [|n IH]; intros s Hn.
  - destruct s; [reflexivity|simpl in Hn; lia].
  - destruct s as [|c s1]; [reflexivity|].
    assert (Hkeep : has_capital
              (String (let n := nat_of_ascii c in
                       if ((65 <=? n) && (n <=? 90))%nat then ascii_of_nat (n + 32) else c)
                      (toLowerCase s1)) = false).
    { cbn [has_capital]. rewrite lowered_no_capital. apply IH. simpl in Hn. lia. }
    destruct s1 as [|c1 s2]; [exact Hkeep|].
    change (toLowerCase (String c (String c1 s2))) with
      (let n := nat_of_ascii c in
       let keep := String (if ((65 <=? n) && (n <=? 90))%nat then ascii_of_nat (n + 32) else c)
                     (toLowerCase (String c1 s2)) in
       let n1 := nat_of_ascii c1 in
       if ((n =? 196) && (n1 =? 176))%nat
       then String "i" (String (ascii_of_nat 204) (String (ascii_of_nat 135) (toLowerCase s2)))
       else match s2 with
            | String c2 s3 =>
                if ((n =? 226) && (n1 =? 132) && (nat_of_ascii c2 =? 170))%nat
                then String "k" (toLowerCase s3)
                else keep
            | EmptyString => keep
            end).
    cbv zeta.
    destruct (_ && _)%nat.
    + cbn [has_capital]. rewrite (IH s2) by (simpl in Hn; lia). reflexivity.
    + destruct s2 as [|c2 s3]; [exact Hkeep|].
      destruct (_ && _)%nat; [|exact Hkeep].
      cbn [has_capital]. rewrite (IH s3) by (simpl in Hn; lia). reflexivity.
Qed.

Lemma toLowerCase_no_capital s : has_capital (toLowerCase s) = false.
Proof. apply (toLowerCase_no_capital_upto (String.length s)). apply Nat.le_refl. Qed.

Lemma inherited_In name : inherited name = true <-> In name inherited_names.
Proof.
  unfold inherited. rewrite existsb_exists. split.
  - intros (x & Hin & Heq). apply String.eqb_eq in Heq. now subst.
  - intros Hin. exists name. split; [exact Hin|apply String.eqb_refl].
Qed.

Lemma inherited_lowered name :
  inherited (toLowerCase name) = true
  <-> toLowerCase name = "constructor" \/ toLowerCase name = "__proto__".
Proof.
  split.
  - intros H. apply inherited_In in H.
    pose proof (toLowerCase_no_capital name) as Hcap.
    cbn [inherited_names In] in H.
    repeat (destruct H as [H | H];
            [first [now left | now right
                   | rewrite <- H in Hcap; vm_compute in Hcap; discriminate Hcap]|]).
    destruct H.
  - intros [-> | ->]; reflexivity.
Qed.

(** An inherited name is no key of the tables, and none of the two apps
    with an action of their own. *)
Lemma inherited_not_app name :
  inherited name = true ->
  lookup_app name APP_URLS = None /\ lookup_name name APP_NAMES = None
  /\ String.eqb name "outlook" = false /\ String.eqb name "word" = false.
Proof.
  intros H. apply inherited_In in H. cbn [inherited_names In] in H.
  repeat (destruct H as [<- | H]; [repeat split; reflexivity|]).
  destruct H.
Qed.


Lemma getAppUrl_inherited store appName account :
  or_else account (getAccountType store) = VStr "personal"
  \/ or_else account (getAccountType store) = VStr "work" ->
  inherited (toLowerCase appName) = true ->
  getAppUrl store (VStr appName) account = Normal VUndefined.
Proof.
  intros Hacc Hinh. unfold getAppUrl.
  destruct (inherited_not_app _ Hinh) as (-> & _). rewrite Hinh.
  destruct Hacc as [-> | ->]; reflexivity.
Qed.




(** The hotkey manager launches the app a stored binding names with
    the action new; for the name constructor the focused window is asked
    to load undefined. *)
Example launchApp_constructor :
  launchApp Sample.personal_home (Some Sample.win_restored) "constructor"
    {| launch_accountType := VUndefined; launch_forceNewWindow := VUndefined;
       launch_focusedWindow := VUndefined; launch_action := VStr "new" |}
  = Normal (LoadedInFocused Sample.win_restored (Url VUndefined)).
Proof. reflexivity. Qed.

(** ** The home page *)



(** ** The tables of apps *)

Lemma lookup_name_Some name table :
  is_Some (lookup_name name table) <-> In name (List.map fst table).
Proof.
  induction table as [|[k n] table IH]; simpl.
  - split; [intros (x & Hx); discriminate|intros []].
  - destruct (String.eqb_spec k name) as [->|Hne].
    + split; [now left|eauto].
    + rewrite IH. split; [now right|]. intros [Heq|Hin]; [contradiction|exact Hin].
Qed.

Lemma lookup_app_Some name table :
  is_Some (lookup_app name table) <-> In name (List.map fst table).
Proof.
  induction table as [|[k a] table IH]; simpl.
  - split; [intros (x & Hx); discriminate|intros []].
  - destruct (String.eqb_spec k name) as [->|Hne].
    + split; [now left|eauto].
    + rewrite IH. split; [now right|]. intros [Heq|Hin]; [contradiction|exact Hin].
Qed.

(** X11. The three tables of appLauncher.js agree.  A name, in any
    case, has a display name in APP_NAMES exactly when it has addresses
    in APP_URLS; every app of getAppList is displayed under the name the
    list gives it and has its own addresses.  Of the names the tables
    inherit from Object.prototype a lowered name can only be constructor
    or __proto__.  A name that, lowered, is in no table and is none of
    these two is displayed as it was given and is sent to the home page of
    the account.  A name that is one of the two is in no table either;
    getAppDisplayName returns the inherited member and no string, and
    getAppUrl returns undefined for the two account types (passed in, or
    the stored one) and not the home page. *)
Theorem app_tables_agree :
  (forall name,
      is_Some (lookup_name (toLowerCase name) APP_NAMES)
      <-> is_Some (lookup_app (toLowerCase name) APP_URLS))
  /\ (forall id label,
        In (id, label) getAppList ->
        getAppDisplayName id = Name label
        /\ exists e, lookup_app (toLowerCase id) APP_URLS = Some e /\ e <> APP_URLS_home)
  /\ (forall name,
        inherited (toLowerCase name) = true
        <-> toLowerCase name = "constructor" \/ toLowerCase name = "__proto__")
  /\ (forall store name account,
        lookup_app (toLowerCase name) APP_URLS = None ->
        toLowerCase name <> "constructor" ->
        toLowerCase name <> "__proto__" ->
        getAppDisplayName name = Name name
        /\ getAppUrl store (VStr name) account
           = getAppUrl store (VStr "home") account)
  /\ (forall store name account,
        toLowerCase name = "constructor" \/ toLowerCase name = "__proto__" ->
        lookup_app (toLowerCase name) APP_URLS = None
        /\ getAppDisplayName name = Member (toLowerCase name)
        /\ (account = VUndefined \/ account = VStr "personal" \/ account = VStr "work" ->
            getAppUrl store (VStr name) account = Normal VUndefined
            /\ getAppUrl store (VStr name) account
               <> getAppUrl store (VStr "home") account)).
Proof.
  split.
  { intros name. rewrite lookup_name_Some, lookup_app_Some. reflexivity. }
  split.
  { intros id label Hin. cbn [getAppList In] in Hin.
    repeat (destruct Hin as [Hin | Hin];
            [inversion Hin; subst; split; [reflexivity|];
             eexists; split; [reflexivity|discriminate]|]).
    destruct Hin. }
  split; [exact inherited_lowered|].
  split.
  { intros store name account Hnone H1 H2.
    assert (Hown : inherited (toLowerCase name) = false).
    { destruct (inherited (toLowerCase name)) eqn:E; [|reflexivity].
      apply inherited_lowered in E. destruct E; contradiction. }
    split.
    - unfold getAppDisplayName. rewrite Hown.
      destruct (lookup_name (toLowerCase name) APP_NAMES) as [n|] eqn:E; [|reflexivity].
      assert (Hsome : is_Some (lookup_app (toLowerCase name) APP_URLS)).
      { apply lookup_app_Some. change (List.map fst APP_URLS) with (List.map fst APP_NAMES).
        apply lookup_name_Some. eauto. }
      rewrite Hnone in Hsome. destruct Hsome as (x & Hx). discriminate.
    - unfold getAppUrl. rewrite Hnone, Hown. reflexivity. }
  intros store name account Hnames.
  apply inherited_lowered in Hnames.
  destruct (inherited_not_app _ Hnames) as (Happ & Hname & _).
  split; [exact Happ|]. split.
  { unfold getAppDisplayName. now rewrite Hname, Hnames. }
  intros Hacc.
  assert (Htype : or_else account (getAccountType store) = VStr "personal"
                  \/ or_else account (getAccountType store) = VStr "work").
  { destruct Hacc as [-> | [-> | ->]]; [|now left|now right].
    destruct (getAccountType_cases store) as [H | H];
      unfold or_else; cbn [truthy]; rewrite H; [now right|now left]. }
  rewrite (getAppUrl_inherited store name account Htype Hnames).
  split; [reflexivity|].
  unfold getAppUrl. fold (or_else account (getAccountType store)).
  destruct Htype as [-> | ->]; discriminate.
Qed.

(** ** The command line *)

Import Cli.

Ltac absurd_bool :=
  match goal with
  | H : @eq bool _ _ |- _ => solve [vm_compute in H; discriminate H]
  end.

(** A flag argument that is read sets its flag, and a flag that is set
    stays set. *)
Ltac flag_step :=
  intros [Hp | Hin];
  [ first [ exact Hp
          | match goal with IH : _ -> _ |- _ => apply IH; left; first [exact Hp | reflexivity] end ]
  | repeat (destruct Hin as [Heq | Hin];
            [ subst;
              first [ absurd_bool
                    | match goal with IH : _ -> _ |- _ => apply IH; left; reflexivity end ]
            | ]);
    first [ match goal with IH : _ -> _ |- _ => apply IH; right; exact Hin end
          | destruct Hin ] ].

Lemma parse_help args p :
  p_help p = true \/ In "--help" args -> p_help (parse args p) = true.
Proof. functional induction (parse args p); flag_step. Qed.

Lemma parse_version args p :
  p_version p = true \/ In "--version" args -> p_version (parse args p) = true.
Proof. functional induction (parse args p); flag_step. Qed.

(** X12. When --help or --version is among the arguments (from the third
    element of process.argv on), processCLI asks for an exit with the code
    SUCCESS, whatever else the command line holds: neither is ever taken
    for the value of another option or passed over. *)
Theorem processCLI_help_or_version :
  forall argv : list string,
    In "--help" (skipn 2 argv) \/ In "--version" (skipn 2 argv) ->
    processCLI argv = Exit SUCCESS.
Proof.
  intros argv H. unfold processCLI, parseArgs.
  destruct H as [H | H].
  - rewrite parse_help by (right; exact H). reflexivity.
  - rewrite parse_version by (right; exact H).
    destruct (p_help _); reflexivity.
Qed.

(** --help after an unknown app and a missing value. *)
Lemma processCLI_help_or_version_witness :
  processCLI ["electron"; "."; "--app"; "notepad"; "--open"; "--help"] = Exit SUCCESS.
Proof.
  apply processCLI_help_or_version. left. simpl. auto 10.
Defined.

(** The short form -h is not protected in that way: after --app it is
    taken for the name of the app. *)
Example short_help_taken_for_a_value :
  processCLI ["electron"; "."; "--app"; "-h"] = Exit UNKNOWN_APP.
Proof. reflexivity. Qed.







(** ** Preferences *)

Import Preferences.

Ltac store_reads :=
  repeat (rewrite getValue_setValue_eq
          || rewrite getValue_setValue_ne by discriminate).

(** The fields of getAllPreferences. *)
Lemma getAllPreferences_fields dark (store : settings) :
  let prefs := getAllPreferences dark store in
  get prefs "accountType"
  = Normal (VStr (if is_str "?auth=2" (getValue store "enterprise-or-normal")
                  then "work" else "personal"))
  /\ get prefs "restoreSession" = Normal (VBool (is_true (getValue store "restoreSession")))
  /\ get prefs "startMinimized" = Normal (VBool (is_true (getValue store "startMinimized")))
  /\ get prefs "minimizeToTray" = Normal (VBool (is_true (getValue store "minimizeToTray")))
  /\ get prefs "customPage" = Normal (or_else (getValue store "custompage") (VStr "home"))
  /\ get prefs "windowSize" = Normal (VStr (getWindowSizePreset store))
  /\ get prefs "openInNewWindow"
     = Normal (VBool (is_str "true" (getValue store "websites-in-new-window")))
  /\ get prefs "autoHideMenuBar"
     = Normal (VBool (is_str "true" (getValue store "autohide-menubar")))
  /\ get prefs "theme" = Normal (or_else (getValue store "theme") (VStr "system"))
  /\ get prefs "blockAdsAndTrackers"
     = Normal (VBool (is_str "true" (getValue store "blockadsandtrackers")))
  /\ get prefs "externalLinks" = Normal (VBool (is_str "true" (getValue store "externalLinks")))
  /\ get prefs "userAgent" = Normal (getValue store "useragentstring")
  /\ get prefs "discordRpc" = Normal (VBool (is_str "true" (getValue store "discordrpcstatus")))
  /\ get prefs "autoUpdates" = Normal (VBool (is_str "true" (getValue store "autoupdater")))
  /\ get prefs "dynamicIcons" = Normal (VBool (is_str "true" (getValue store "dynamicicons")))
  /\ get prefs "globalHotkeys" = Normal (VBool (is_true (getValue store "globalHotkeys"))).
Proof. repeat split; reflexivity. Qed.

Ltac read_field dark store' :=
  destruct (getAllPreferences_fields dark store')
    as (F1 & F2 & F3 & F4 & F5 & F6 & F7 & F8 & F9 & F10 & F11 & F12 & F13 & F14 & F15 & F16);
  cbv zeta in F1, F2, F3, F4, F5, F6, F7, F8, F9, F10, F11, F12, F13, F14, F15, F16;
  first [ rewrite F1 | rewrite F2 | rewrite F3 | rewrite F4 | rewrite F5 | rewrite F6
        | rewrite F7 | rewrite F8 | rewrite F9 | rewrite F10 | rewrite F11 | rewrite F12
        | rewrite F13 | rewrite F14 | rewrite F15 | rewrite F16 ];
  clear F1 F2 F3 F4 F5 F6 F7 F8 F9 F10 F11 F12 F13 F14 F15 F16.

(** X14. Whatever a control of the preferences dialog sends (a switch its
    checked state, a select or a radio group the value of the chosen
    option), setPreference stores it and reports success, and
    getAllPreferences then shows exactly that value under the key of the
    control. *)
Theorem dialog_round_trip :
  forall (store : settings) (dark : bool) (key : string) (v : value),
    (In key toggles /\ exists b, v = VBool b)
    \/ (exists options s, In (key, options) choices /\ In s options /\ v = VStr s) ->
    exists store' r,
      setPreference key v store = (store', Normal r)
      /\ success r = true
      /\ get (getAllPreferences dark store') key = Normal v.
Proof.
  intros store dark key v [(Hkey & b & ->) | (options & s & Hkey & Hs & ->)].
  - cbn [toggles In] in Hkey.
    repeat (destruct Hkey as [<- | Hkey];
            [eexists _, _; split; [reflexivity|]; split; [reflexivity|];
             match goal with
             | |- get (getAllPreferences _ ?s) _ = _ => read_field dark s
             end;
             store_reads; destruct b; reflexivity|]).
    destruct Hkey.
  - cbn [choices In] in Hkey.
    repeat (destruct Hkey as [Hkey | Hkey];
            [inversion Hkey; subst key options; clear Hkey; cbn [In] in Hs;
             repeat (destruct Hs as [<- | Hs];
                     [eexists _, _; split; [reflexivity|]; split; [reflexivity|];
                      match goal with
                      | |- get (getAllPreferences _ ?s) _ = _ => read_field dark s
                      end;
                      unfold getWindowSizePreset; store_reads; reflexivity|]);
             destruct Hs|]).
    destruct Hkey.
Qed.

(** The work account is chosen and then the switch of restore-on-start
    is turned on. *)
Lemma dialog_round_trip_witness :
  exists store' r,
    setPreference "accountType" (VStr "work") Sample.personal_home = (store', Normal r)
    /\ success r = true
    /\ get (getAllPreferences false store') "accountType" = Normal (VStr "work").
Proof.
  apply (dialog_round_trip Sample.personal_home false "accountType" (VStr "work")).
  right. exists ["personal"; "work"], "work".
  split; [left; reflexivity|]. split; [right; left; reflexivity|reflexivity].
Defined.

Ltac in_writes := unfold writes; repeat (first [left; reflexivity | right]).

(** A setting that reads differently after some writes is one of those
    written. *)
Ltac written :=
  let k := fresh "k" in
  let Hk := fresh "Hk" in
  intros k Hk;
  repeat match type of Hk with
         | context [getValue (setValue ?k1 ?v ?s) k] =>
             destruct (string_dec k k1) as [->|?];
             [ in_writes
             | rewrite (getValue_setValue_ne k1 k v s) in Hk by assumption ]
         end;
  try (exfalso; apply Hk; reflexivity).

(** X15. setPreference writes a preference only to the settings that
    belong to its key.  When it throws, either the value was undefined and
    no setting was changed, or the key was windowSize and only
    customWindowSize was changed (to false); an unknown key changes
    nothing and is answered with success false. *)
Theorem setPreference_writes :
  forall (key : string) (v : value) (store store' : settings) (out : completion Result),
    setPreference key v store = (store', out) ->
    (forall k, getValue store' k <> getValue store k -> In (key, k) writes)
    /\ (forall e, out = Throw e ->
          (v = VUndefined /\ store' = store)
          \/ (key = "windowSize"
              /\ store' = setValue "customWindowSize" (VBool false) store))
    /\ (forall r, out = Normal r -> success r = false ->
          store' = store /\ ~ In key (List.map fst writes)).
Proof.
  intros key v store store' out H. unfold setPreference in H.
  repeat match type of H with
         | context [String.eqb key ?k] =>
             destruct (String.eqb_spec key k) as [->|?]
         end;
    unfold done, raw, toggle, Settings.set in H.
  all: try (destruct v; inversion H; subst; clear H;
            (split; [written|]);
            (split; [intros e He; first [discriminate He | left; split; reflexivity]|]);
            intros r Hr Hs; inversion Hr; subst; discriminate Hs).
  - destruct (is_str "custom" v); [|destruct (sizeMap v) as [[w h]|e0]];
      inversion H; subst; clear H;
      (split; [written|]);
      (split; [intros e He; first [discriminate He | right; split; reflexivity]|]);
      intros r Hr Hs; inversion Hr; subst; discriminate Hs.
  - inversion H; subst; clear H.
    split; [intros k Hk; exfalso; apply Hk; reflexivity|].
    split; [intros e He; discriminate He|].
    intros r _ _. split; [reflexivity|].
    cbn [writes List.map fst In]. intuition congruence.
Qed.

(** An undefined value for the custom width is refused and leaves the
    settings as they were. *)
Lemma setPreference_writes_witness :
  exists e,
    setPreference "customWindowWidth" VUndefined Sample.personal_home
    = (Sample.personal_home, Throw e).
Proof.
  destruct (setPreference "customWindowWidth" VUndefined Sample.personal_home)
    as [store' [r|e]] eqn:E; [vm_compute in E; discriminate|].
  destruct (setPreference_writes _ _ _ _ _ E) as (_ & Hthrow & _).
  destruct (Hthrow e eq_refl) as [(_ & ->) | (Hkey & _)]; [|discriminate Hkey].
  exists e. reflexivity.
Defined.

(** ** Switching restore-on-start, and the summary of the session file *)

Import SessionControl.

Lemma or_else_count (k : nat) :
  or_else (VInt (Z.of_nat k)) (VInt 0) = VInt (Z.of_nat k).
Proof. destruct k; reflexivity. Qed.

(** X16. After a save with restore-on-start on, getSessionInfo reports
    the number of windows of the snapshot, the time of the save as the
    timestamp, and the time that has passed since as the age; and
    restoreSession, asked at that moment, restores exactly when that age
    is at most 24 hours and the count is not zero. *)
Theorem saved_session_info :
  forall (w : World) (time : Z),
    getValue (store w) "restoreSession" = VBool true ->
    let state := getSessionState (allWindows w) (registry w) in
    let later := at_time time (saveSession w) in
    getSessionInfo later
    = Some {| windowCount := VInt (Z.of_nat (length state));
              timestamp := VInt (now w);
              age := Fin (inject_Z time - inject_Z (now w)) |}
    /\ (snd (restoreSession later) = true
        <-> time - now w <= maxAge /\ state <> []).
Proof.
  intros w time Hon state later.
  pose proof (saveSession_file w Hon) as Hfile. fold state in Hfile.
  assert (Hstore : store later = store w).
  { subst later. unfold saveSession. rewrite Hon. reflexivity. }
  assert (Hfile' : sessionFile later
                   = Some (Json (VObj [ ("version", VInt 1); ("timestamp", VInt (now w));
                                        ("windows",
                                         VArr (List.map (fun r => json (object_of r))
                                                 state)) ])))
    by exact Hfile.
  split.
  - unfold getSessionInfo. rewrite Hfile'. cbn [JSON_parse bind].
    set (elems := List.map _ state).
    change (get (VObj [ ("version", VInt 1); ("timestamp", VInt (now w));
                        ("windows", VArr elems) ]) "windows")
      with (Normal (VArr elems)).
    change (get (VObj [ ("version", VInt 1); ("timestamp", VInt (now w));
                        ("windows", VArr elems) ]) "timestamp")
      with (Normal (VInt (now w))).
    cbn [bind ToNumber VInt optional_length length_of sub].
    subst elems. rewrite length_map.
    fold (VInt (Z.of_nat (length state))). fold (VInt 0). rewrite or_else_count.
    reflexivity.
  - rewrite (restoreSession_parsed later
               (VObj [ ("version", VInt 1); ("timestamp", VInt (now w));
                       ("windows", VArr (List.map (fun r => json (object_of r)) state)) ])
               (List.map (fun r => json (object_of r)) state)
               (Fin (inject_Z (now w))));
      [|rewrite Hstore; exact Hon|exact Hfile'|reflexivity|reflexivity].
    change (now later) with time. rewrite stale_test, length_map.
    destruct (Z.ltb_spec maxAge (time - now w)) as [Hold|Hfresh].
    + simpl. split; [discriminate|]. intros (Hle & _). lia.
    + destruct state as [|r rest].
      * simpl. split; [discriminate|]. intros (_ & Hne). now contradiction Hne.
      * simpl. split; [|reflexivity]. intros _. split; [exact Hfresh|discriminate].
Qed.

(** Window 7, saved and looked at an hour later. *)
Lemma saved_session_info_witness :
  exists info,
    getSessionInfo (at_time 1700003600000 (saveSession Sample.saving_world)) = Some info
    /\ windowCount info = VInt 1
    /\ age info = Fin (inject_Z 1700003600000 - inject_Z 1700000000000).
Proof.
  destruct (saved_session_info Sample.saving_world 1700003600000 eq_refl) as (Hinfo & _).
  eexists. split; [exact Hinfo|]. split; reflexivity.
Defined.

Lemma clearSession_fields w :
  sessionFile (clearSession w) = None /\ store (clearSession w) = store w
  /\ registry (clearSession w) = registry w /\ timers (clearSession w) = timers w.
Proof.
  unfold clearSession, existsSync.
  destruct (sessionFile w) eqn:E; simpl; auto.
Qed.

Lemma saveSession_off w :
  getValue (store w) "restoreSession" <> VBool true -> saveSession w = w.
Proof.
  intros H. unfold saveSession.
  destruct (is_true _) eqn:E; [apply is_true_spec in E; contradiction|reflexivity].
Qed.

Lemma getValue_Some (store : settings) key v :
  v <> VUndefined -> getValue store key = v -> store !! key = Some v.
Proof.
  unfold getValue. destruct (store !! key) as [x|]; simpl; congruence.
Qed.

(** X17. Two ways to switch restore-on-start off, starting with it on.
    disableSessionRestore also deletes the session file: afterwards there
    is no summary, nothing is saved or restored, and switching on again
    finds nothing to restore.  The switch of the preferences dialog only
    changes the setting: nothing is saved or restored while it is off, but
    the file stays, and switching on again puts the process back where it
    was, with the old snapshot to restore. *)
Theorem switching_restore_off :
  forall w : World,
    isSessionRestoreEnabled w = true ->
    let gone := disableSessionRestore w in
    let off :=
      with_store (fst (setPreference "restoreSession" (VBool false) (store w))) w in
    let back :=
      with_store (fst (setPreference "restoreSession" (VBool true) (store off))) off in
    (sessionFile gone = None
     /\ isSessionRestoreEnabled gone = false
     /\ getSessionInfo gone = None
     /\ saveSession gone = gone
     /\ restoreSession gone = (gone, false)
     /\ restoreSession (enableSessionRestore gone) = (enableSessionRestore gone, false))
    /\ (sessionFile off = sessionFile w
        /\ isSessionRestoreEnabled off = false
        /\ saveSession off = off
        /\ restoreSession off = (off, false)
        /\ back = w).
Proof.
  intros w Hon gone off back.
  apply is_true_spec in Hon.
  destruct (clearSession_fields
              (with_store (setValue "restoreSession" (VBool false) (store w)) w))
    as (Hfile & Hstore & _).
  fold (disableSessionRestore w) in Hfile, Hstore. fold gone in Hfile, Hstore.
  cbn [with_store store] in Hstore.
  assert (Hoff : getValue (store gone) "restoreSession" = VBool false)
    by (rewrite Hstore; apply getValue_setValue_eq).
  split.
  - split; [exact Hfile|].
    split; [unfold isSessionRestoreEnabled; now rewrite Hoff|].
    split; [unfold getSessionInfo; now rewrite Hfile|].
    split; [apply saveSession_off; rewrite Hoff; discriminate|].
    split; [apply restoreSession_off; rewrite Hoff; discriminate|].
    unfold restoreSession, enableSessionRestore.
    cbn [with_store store sessionFile].
    rewrite getValue_setValue_eq, Hfile. reflexivity.
  - assert (Hoff' : getValue (store off) "restoreSession" = VBool false)
      by apply getValue_setValue_eq.
    split; [reflexivity|].
    split; [unfold isSessionRestoreEnabled; now rewrite Hoff'|].
    split; [apply saveSession_off; rewrite Hoff'; discriminate|].
    split; [apply restoreSession_off; rewrite Hoff'; discriminate|].
    subst back off. unfold with_store. cbn [store sessionFile now registry allWindows
                                             timers effects setPreference fst].
    change (fst (setPreference "restoreSession" (VBool true)
                   (fst (setPreference "restoreSession" (VBool false) (store w)))))
      with (setValue "restoreSession" (VBool true)
              (setValue "restoreSession" (VBool false) (store w))).
    unfold setValue. rewrite insert_insert_eq.
    rewrite insert_id by (apply getValue_Some; [discriminate|exact Hon]).
    destruct w; reflexivity.
Qed.

(** The process that has just saved window 7. *)
Lemma switching_restore_off_witness :
  sessionFile (disableSessionRestore (saveSession Sample.saving_world)) = None
  /\ sessionFile
       (with_store
          (fst (setPreference "restoreSession" (VBool false)
                  (store (saveSession Sample.saving_world))))
          (saveSession Sample.saving_world))
     = sessionFile (saveSession Sample.saving_world).
Proof.
  destruct (switching_restore_off (saveSession Sample.saving_world) eq_refl)
    as ((Hgone & _) & (Hkept & _)).
  split; [exact Hgone|exact Hkept].
Defined.

(** ** The timers of a restore *)

Lemma schedule_nth elems : forall index i e,
  nth_error elems i = Some e ->
  nth_error (schedule elems index) i = Some ((index + Z.of_nat i) * 100, e).
Proof.
  induction elems as [|x elems IH]; intros index i e H.
  - destruct i; discriminate.
  - destruct i as [|i]; simpl in *.
    + inversion H; subst. now rewrite Z.add_0_r.
    + rewrite (IH (index + 1) i e H). do 3 f_equal. lia.
Qed.

(** X18. When restoreSession answers true it has created no window yet:
    the registry, the settings and the session file are as before, and
    what it added is one timer per entry of the snapshot's windows, in
    their order, entry number i (from 0) with a delay of i * 100 ms, after
    the timers that were already pending. *)
Theorem restoreSession_staggers :
  forall w w' : World,
    restoreSession w = (w', true) ->
    exists sessionData elems,
      sessionFile w = Some (Json sessionData)
      /\ get sessionData "windows" = Normal (VArr elems)
      /\ elems <> []
      /\ timers w' = timers w ++ schedule elems 0
      /\ (forall i e, nth_error elems i = Some e ->
                      nth_error (schedule elems 0) i = Some (Z.of_nat i * 100, e))
      /\ registry w' = registry w /\ store w' = store w
      /\ sessionFile w' = sessionFile w.
Proof.
  intros w w' H. unfold restoreSession in H.
  destruct (negb (is_true _)); [discriminate|].
  destruct (sessionFile w) as [[raw|sessionData]|] eqn:Hfile; try discriminate.
  cbn [JSON_parse] in H.
  destruct (get sessionData "windows") as [windows|e] eqn:Hwin; [|discriminate].
  destruct (negb (truthy windows) || negb (isArray windows)); [discriminate|].
  destruct (bind (get sessionData "timestamp") ToNumber) as [t|e]; [|discriminate].
  destruct (gt _ _); [discriminate|].
  destruct windows as [| | | | |elems|]; try discriminate.
  destruct (length elems =? 0)%nat eqn:Hlen; [discriminate|].
  inversion H; subst w'. clear H.
  destruct (forEach_setTimeout_spec elems 0
              (emit (Console (RestoringSession (length elems))) w))
    as (Hs & Hf & _ & Hr & _ & Ht & _).
  exists sessionData, elems.
  split; [reflexivity|]. split; [exact Hwin|].
  split; [intros ->; discriminate|].
  split; [exact Ht|].
  split; [intros i e He; rewrite (schedule_nth elems 0 i e He); reflexivity|].
  split; [exact Hr|]. split; [exact Hs|]. rewrite Hf. exact Hfile.
Qed.

(** The process that starts an hour after window 7 was saved. *)
Lemma restoreSession_staggers_witness :
  exists w' t,
    restoreSession Sample.restoring_world = (w', true)
    /\ timers w' = [(0, t)]
    /\ registry w' = registry Sample.restoring_world.
Proof.
  destruct (restoreSession Sample.restoring_world) as [w' b] eqn:E.
  assert (Hb : b = true) by (vm_compute in E; inversion E; reflexivity).
  subst b.
  destruct (restoreSession_staggers _ _ E)
    as (sessionData & elems & Hfile & Hwin & Hne & Ht & _ & Hr & _).
  vm_compute in Hfile. inversion Hfile; subst sessionData. clear Hfile.
  vm_compute in Hwin. inversion Hwin; subst elems. clear Hwin.
  eexists w', _. split; [reflexivity|]. split; [exact Ht|exact Hr].
Defined.

Lemma restore_window_counter store defaultBounds v window reg :
  let result := restore_window store defaultBounds v window reg in
  windowIdCounter (fst result) = windowIdCounter reg + (if readable v then 1 else 0)
  /\ (readable v = false -> result = (reg, Throw "TypeError")).
Proof.
  unfold restore_window.
  destruct v; cbn [get bind readable fst];
    try (split; [apply createWindow_registry|discriminate]);
    (split; [lia|reflexivity]).
Qed.

(** The outcomes of the timers of a restore, and the counter after
    them. *)
Lemma fire_outcomes :
  forall store defaultBounds fresh (callbacks : list (Z * value)) (k : nat) (reg : Registry),
    let result := fire store defaultBounds fresh k callbacks reg in
    length (snd result) = length callbacks
    /\ windowIdCounter (fst result)
       = windowIdCounter reg
         + Z.of_nat (length (List.filter (fun t => readable (snd t)) callbacks))
    /\ (forall i delay,
          nth_error callbacks i = Some (delay, VNull) ->
          nth_error (snd result) i = Some (Throw "TypeError")).
Proof.
  intros store db fresh callbacks.
  induction callbacks as [|[delay v] callbacks IH]; intros k reg.
  - cbn [fire fst snd length List.filter]. split; [reflexivity|]. split; [lia|].
    intros i d H. destruct i; discriminate.
  - cbn [fire].
    destruct (restore_window_counter store db v (fresh k) reg) as (Hc & Hnull).
    destruct (restore_window store db v (fresh k) reg) as [reg1 c] eqn:E1.
    specialize (IH (S k) reg1).
    destruct (fire store db fresh (S k) callbacks reg1) as [reg2 cs] eqn:E2.
    cbn [fst snd] in *. destruct IH as (Hlen & Hcount & Hnth).
    split; [simpl; now rewrite Hlen|].
    split.
    + rewrite Hcount, Hc. cbn [List.filter snd].
      destruct (readable v); cbn [length]; lia.
    + intros i d H. destruct i as [|i]; cbn [nth_error] in *.
      * inversion H; subst. specialize (Hnull eq_refl). inversion Hnull; subst.
        reflexivity.
      * eapply Hnth. exact H.
Qed.

(** X19. The timers of a restore run one after the other, and each
    stands for itself: there is one outcome per timer, a timer whose
    snapshot entry is null throws a TypeError and changes nothing, and
    every other entry takes the next window number, whether or not its
    window could be created; so the counter ends advanced by the number
    of entries that are not null. *)
Theorem restore_callbacks_independent :
  forall store defaultBounds fresh (callbacks : list (Z * value)) (k : nat) (reg : Registry),
    let result := fire store defaultBounds fresh k callbacks reg in
    length (snd result) = length callbacks
    /\ windowIdCounter (fst result)
       = windowIdCounter reg
         + Z.of_nat (length (List.filter (fun t => readable (snd t)) callbacks))
    /\ (forall i delay,
          nth_error callbacks i = Some (delay, VNull) ->
          nth_error (snd result) i = Some (Throw "TypeError"))
    /\ (forall window reg0,
          restore_window store defaultBounds VNull window reg0
          = (reg0, Throw "TypeError")).
Proof.
  intros store db fresh callbacks k reg result.
  destruct (fire_outcomes store db fresh callbacks k reg) as (H1 & H2 & H3).
  split; [exact H1|]. split; [exact H2|]. split; [exact H3|].
  intros window reg0. reflexivity.
Qed.

(** ** The media indicator *)

Import MediaState.

Set Warnings "-clear-no-such-hyp".

Lemma track_added id (windows : gset Z) :
  id <> 0 -> track true (Some id) windows = {[ id ]} ∪ windows.
Proof.
  intros Hid. unfold track, truthy_id.
  destruct (Z.eqb_spec id 0); [contradiction|reflexivity].
Qed.

Lemma clearWindowMediaState_quiet windowId m :
  let m' := fst (clearWindowMediaState windowId m) in
  activeMediaWindows m' = activeMediaWindows m ∖ {[ windowId ]}
  /\ (activeMediaWindows m' = ∅ -> isAnyMediaActive m' = false)
  /\ (activeMediaWindows m' <> ∅ ->
      cameraActive m' = cameraActive m /\ microphoneActive m' = microphoneActive m
      /\ screenShareActive m' = screenShareActive m).
Proof.
  unfold clearWindowMediaState.
  destruct (decide (size (activeMediaWindows m ∖ {[ windowId ]}) = 0%nat)) as [H0|Hn];
    cbn [fst activeMediaWindows cameraActive microphoneActive screenShareActive].
  - split; [reflexivity|]. split; [reflexivity|].
    intros Hne. apply size_empty_inv in H0. apply leibniz_equiv in H0. contradiction.
  - split; [reflexivity|]. split; [|auto].
    intros He. rewrite He in Hn. rewrite size_empty in Hn. contradiction.
Qed.

Lemma listen_quiet s m :
  from_window s ->
  (activeMediaWindows m = ∅ -> isAnyMediaActive m = false) ->
  activeMediaWindows (fst (listen s m)) = ∅ ->
  isAnyMediaActive (fst (listen s m)) = false.
Proof.
  intros Hs Hq.
  destruct s as [windowId data|windowId active| |windowId]; cbn [listen].
  - destruct Hs as (id & -> & Hid).
    destruct (data_active data).
    + destruct (data_camera data), (data_microphone data);
        cbn [setCameraActive setMicrophoneActive fst activeMediaWindows];
        rewrite ?track_added by exact Hid; try exact Hq; intros He; set_solver.
    + unfold truthy_id. destruct (Z.eqb_spec id 0); [contradiction|].
      apply clearWindowMediaState_quiet.
  - destruct Hs as (id & -> & Hid).
    destruct active; cbn [setScreenShareActive fst activeMediaWindows].
    + rewrite track_added by exact Hid. intros He. set_solver.
    + unfold track. destruct (truthy_id (Some id)); intros He;
        specialize (Hq He); unfold isAnyMediaActive in *;
        cbn [cameraActive microphoneActive screenShareActive];
        destruct (cameraActive m), (microphoneActive m); try discriminate; reflexivity.
  - reflexivity.
  - apply clearWindowMediaState_quiet.
Qed.

(** X20. As long as every message comes with the id of a window, the
    listeners keep this true: when no window is tracked, no flag is set
    and no indicator is shown.  It holds for the state a module starts
    with, and so after every run of such messages and of window-closed and
    window-all-closed events. *)
Theorem no_indicator_without_window :
  forall (signals : list signal) (m : Media),
    Forall from_window signals ->
    (activeMediaWindows m = ∅ -> isAnyMediaActive m = false) ->
    activeMediaWindows (heard signals m) = ∅ ->
    isAnyMediaActive (heard signals m) = false
    /\ getMediaIndicatorType (heard signals m) = None.
Proof.
  intros signals m Hall Hq.
  assert (H : activeMediaWindows (heard signals m) = ∅ ->
              isAnyMediaActive (heard signals m) = false).
  { revert m Hq. induction Hall as [|s signals Hs _ IH]; intros m Hq; [exact Hq|].
    apply (IH (fst (listen s m))). now apply listen_quiet. }
  intros He. specialize (H He). split; [exact H|]. clear Hq.
  unfold getMediaIndicatorType, isAnyMediaActive in *.
  destruct (cameraActive (heard signals m)), (microphoneActive (heard signals m)),
    (screenShareActive (heard signals m)); try discriminate; reflexivity.
Qed.

(** Window 7 turns its camera on and off again. *)
Lemma no_indicator_without_window_witness :
  getMediaIndicatorType (heard Scenario.camera_call idle) = None.
Proof.
  apply (no_indicator_without_window Scenario.camera_call idle).
  - constructor; [exists 7; split; [reflexivity|discriminate]|].
    constructor; [exists 7; split; [reflexivity|discriminate]|]. constructor.
  - reflexivity.
  - vm_compute. reflexivity.
Defined.

Lemma camera_reported id data m :
  id <> 0 -> data_active data = true -> data_camera data = true ->
  let m1 := fst (listen (MediaStateChanged (Some id) data) m) in
  cameraActive m1 = true /\ activeMediaWindows m1 = {[ id ]} ∪ activeMediaWindows m.
Proof.
  intros Hid Ha Hc. cbn [listen]. rewrite Ha, Hc.
  destruct (data_microphone data);
    cbn [setCameraActive setMicrophoneActive fst cameraActive activeMediaWindows];
    rewrite ?track_added by exact Hid; split; try reflexivity.
  set_solver.
Qed.

(** X21. A window of the window manager reports a camera stream and is
    closed later without reporting its end.  Its closed handler deletes
    its record and announces the number the window got from the counter,
    while the media state tracks the window under its native id.  When
    the two differ, the native id stays tracked, the camera flag stays
    set and an indicator is still shown after the window is gone; when
    they are equal and no other window was tracked, everything is
    cleared. *)
Theorem closed_window_media :
  forall store defaultBounds options window reg reg' c m data,
    createWindow store defaultBounds options window reg = (reg', Normal c) ->
    win_id window <> 0 ->
    data_active data = true ->
    data_camera data = true ->
    let m1 := fst (listen (MediaStateChanged (Some (win_id window)) data) m) in
    let after := closed c window (reg', m1) in
    getWindowMeta window (fst after) = None
    /\ (win_id window <> windowIdCounter reg + 1 ->
        win_id window ∈ activeMediaWindows (snd after)
        /\ cameraActive (snd after) = true
        /\ is_Some (getMediaIndicatorType (snd after)))
    /\ (win_id window = windowIdCounter reg + 1 ->
        activeMediaWindows m ⊆ {[ win_id window ]} ->
        activeMediaWindows (snd after) = ∅
        /\ getMediaIndicatorType (snd after) = None).
Proof.
  intros store db options window reg reg' c m data Hc Hid Ha Hcam m1 after.
  apply createWindow_returns in Hc as (-> & _ & Hnum & _).
  destruct (camera_reported (win_id window) data m Hid Ha Hcam) as (Hcam1 & Hset1).
  fold m1 in Hcam1, Hset1.
  destruct (clearWindowMediaState_quiet (meta_id (created_meta c)) m1)
    as (Hset2 & Hquiet & Hkept).
  change (fst (clearWindowMediaState (meta_id (created_meta c)) m1)) with (snd after)
    in Hset2, Hquiet, Hkept.
  rewrite Hnum, Hset1 in Hset2.
  split; [unfold getWindowMeta; subst after; cbn [closed fst]; apply closed_lookup_self|].
  split.
  - intros Hne.
    assert (Hin : win_id window ∈ activeMediaWindows (snd after))
      by (rewrite Hset2; set_solver).
    destruct Hkept as (Hk & _); [intros He; rewrite He in Hin; set_solver|].
    split; [exact Hin|]. split; [congruence|].
    unfold getMediaIndicatorType. rewrite Hk, Hcam1.
    destruct (microphoneActive (snd after)); simpl; eauto.
  - intros Heq Hsub.
    assert (He : activeMediaWindows (snd after) = ∅)
      by (rewrite Hset2, <- Heq; set_solver).
    split; [exact He|]. specialize (Hquiet He).
    unfold getMediaIndicatorType, isAnyMediaActive in *.
    destruct (cameraActive (snd after)), (microphoneActive (snd after)),
      (screenShareActive (snd after)); try discriminate; reflexivity.
Qed.

(** The first window of a process has the native id 7 and the number 1:
    after it reported its camera and was closed, 7 is still tracked and
    the camera flag is still set. *)
Lemma closed_window_media_witness :
  exists reg' c,
    createWindow Sample.personal_home Sample.default_size Sample.outlook_options
      Sample.win_restored initial = (reg', Normal c)
    /\ 7 ∈ activeMediaWindows
             (snd (closed c Sample.win_restored
                     (reg', fst (listen (MediaStateChanged (Some 7) Scenario.camera_on)
                                   idle))))
    /\ cameraActive
         (snd (closed c Sample.win_restored
                 (reg', fst (listen (MediaStateChanged (Some 7) Scenario.camera_on) idle))))
       = true.
Proof.
  destruct (createWindow Sample.personal_home Sample.default_size Sample.outlook_options
              Sample.win_restored initial) as [reg' [c|e]] eqn:E;
    [|vm_compute in E; discriminate].
  exists reg', c. split; [reflexivity|].
  destruct (closed_window_media Sample.personal_home Sample.default_size
              Sample.outlook_options Sample.win_restored initial reg' c idle
              Scenario.camera_on E)
    as (_ & Hstays & _); [discriminate|reflexivity|reflexivity|].
  destruct Hstays as (Hin & Hcam & _); [discriminate|].
  split; [exact Hin|exact Hcam].
Defined.

(** ** The theme *)

Import Theme.

(** X22. Once the saved preference has been applied, as initializeTheme
    does, and the preference is one of system, light and dark, toggleTheme
    returns, turns a dark appearance into a light one and a light one into
    a dark one, leaves an explicit preference (light or dark, never
    system) that is applied, and a second toggle brings the first
    appearance back.  The preferences dialog and setThemePreference leave
    the same setting and the same theme source for every value. *)
Theorem toggleTheme_flips :
  forall (store : settings) (native : NativeTheme),
    themeSource native = source_of (getThemePreference store) ->
    In (getThemePreference store) [VStr "system"; VStr "light"; VStr "dark"] ->
    exists store' native',
      toggleTheme (store, native) = Normal (store', native')
      /\ isDarkMode native' = negb (isDarkMode native)
      /\ In (getThemePreference store') [VStr "light"; VStr "dark"]
      /\ themeSource native' = source_of (getThemePreference store')
      /\ (exists store'' native'',
            toggleTheme (store', native') = Normal (store'', native'')
            /\ isDarkMode native'' = isDarkMode native)
      /\ (forall v,
            match setPreference "theme" v store, setThemePreference v (store, native) with
            | (s1, Normal r), Normal (s2, n2) =>
                s1 = s2 /\ Preferences.themeSource r = Some (themeSource n2)
            | (s1, Throw _), Throw _ => s1 = store /\ v = VUndefined
            | _, _ => False
            end).
Proof.
  intros store native Hsync Hpref.
  assert (Hset : forall t (s : settings),
             getThemePreference (setValue "theme" (VStr t) s)
             = or_else (VStr t) (VStr "system")).
  { intros t s. unfold getThemePreference. now rewrite getValue_setValue_eq. }
  assert (Hlast : forall v,
             match setPreference "theme" v store, setThemePreference v (store, native) with
             | (s1, Normal r), Normal (s2, n2) =>
                 s1 = s2 /\ Preferences.themeSource r = Some (themeSource n2)
             | (s1, Throw _), Throw _ => s1 = store /\ v = VUndefined
             | _, _ => False
             end).
  { intros v. destruct v; cbn; auto. }
  unfold toggleTheme. cbn [fst snd].
  unfold isDarkMode, shouldUseDarkColors. rewrite Hsync.
  cbn [In] in Hpref.
  destruct Hpref as [<- | [<- | [<- | []]]]; cbn [is_str String.eqb Ascii.eqb Bool.eqb source_of];
    unfold setThemePreference, Settings.set; cbn [fst snd bind applyTheme source_of is_str];
    try destruct (systemDark native) eqn:Hsys.
  all: eexists _, _; split; [reflexivity|];
    cbn [themeSource systemDark String.eqb Ascii.eqb Bool.eqb negb source_of is_str];
    rewrite ?Hsys; (split; [reflexivity|]); rewrite !Hset;
    (split; [cbn; auto|]); (split; [reflexivity|]);
    (split; [|exact Hlast]);
    cbn [or_else truthy negb String.eqb Ascii.eqb Bool.eqb is_str];
    eexists _, _; (split; [reflexivity|]);
    cbn [themeSource systemDark String.eqb Ascii.eqb Bool.eqb negb source_of is_str];
    rewrite ?Hsys; reflexivity.
Qed.

(** The preference is system and the system prefers dark: the toggle
    chooses light. *)
Lemma toggleTheme_flips_witness :
  exists store' native',
    toggleTheme (Sample.personal_home, {| themeSource := "system"; systemDark := true |})
    = Normal (store', native')
    /\ isDarkMode native' = false.
Proof.
  destruct (toggleTheme_flips Sample.personal_home
              {| themeSource := "system"; systemDark := true |})
    as (store' & native' & Htoggle & Hflip & _).
  - reflexivity.
  - left. reflexivity.
  - exists store', native'. split; [exact Htoggle|exact Hflip].
Defined.
